(** * TaskFlow Lite: a shallow embedding of the task store, the storage
    gateway, the validator and the view filter.

    Source files embedded here:
      - [src/modules/validation.js]  (module [Validation])
      - [src/modules/storage.js]     (module [Storage])
      - [src/modules/render.js]      (module [Render]: [escapeHTML],
                                      [filterTasks], the empty-state text
                                      and the counters)
      - [src/app.js]                 (module [App], the [TaskFlowApp] class)

    JavaScript numbers are IEEE 754 binary64 values, modelled by Rocq's
    primitive [float]; JavaScript strings are sequences of UTF-16 code
    units, modelled by [list N].  The host environment (the JSON codec,
    [String.prototype.toLowerCase], the clock, [Math.random], the
    [localStorage] object) is not code of the repository: the codec and
    the case mapping are the fields of the class [Platform], the clock and
    the random source are read from an [Env] record, and [localStorage] is
    the explicit state [LocalStorage]. *)

From Stdlib Require Import ZArith NArith List Floats Ascii String Lia.
From stdpp Require Import gmap strings list pretty.

Set Warnings "-inexact-float,-register-all".
Local Open Scope string_scope.
Local Open Scope list_scope.

(* ===================================================================== *)
(** * JavaScript values                                                   *)
(* ===================================================================== *)

(** A JavaScript string: its UTF-16 code units. *)
Abbreviation jsstring := (list N).

(** The code units of an ASCII literal. *)
Definition js (s : string) : jsstring :=
  map N_of_ascii (list_ascii_of_string s).

(** [a === b] on strings. *)
Definition str_eqb (a b : jsstring) : bool := bool_decide (a = b).

(** The values a script can hold, as far as this program meets them:
    primitives, arrays and plain objects (own properties in insertion
    order). *)
Inductive jsval : Type :=
| VUndefined
| VNull
| VBool (b : bool)
| VNum (n : float)
| VStr (s : jsstring)
| VArr (elems : list jsval)
| VObj (props : list (string * jsval)).

(** What the program can throw or see thrown. *)
Inductive Error : Type :=
| TypeError
| SyntaxError
| QuotaExceededError
| SecurityError
| UserError (message : string).

(** The outcome of an expression that may throw. *)
Inductive Exc (A : Type) : Type :=
| Return (a : A)
| Throw (e : Error).
Arguments Return {A} a.
Arguments Throw {A} e.

(** ToBoolean on a number: [0], [-0] and [NaN] are falsy. *)
Definition number_truthy (n : float) : bool :=
  negb (PrimFloat.is_zero n || PrimFloat.is_nan n).

(** ToBoolean. *)
Definition truthy (v : jsval) : bool :=
  match v with
  | VUndefined | VNull => false
  | VBool b => b
  | VNum n => number_truthy n
  | VStr s => negb (str_eqb s [])
  | VArr _ | VObj _ => true
  end.

(** [typeof v]. *)
Definition typeof (v : jsval) : string :=
  match v with
  | VUndefined => "undefined"
  | VNull => "object"
  | VBool _ => "boolean"
  | VNum _ => "number"
  | VStr _ => "string"
  | VArr _ | VObj _ => "object"
  end.

Definition Array_isArray (v : jsval) : bool :=
  match v with VArr _ => true | _ => false end.

(** Own-property lookup in an object literal. *)
Fixpoint lookup_prop (name : string) (props : list (string * jsval)) : jsval :=
  match props with
  | [] => VUndefined
  | (k, v) :: rest => if String.eqb k name then v else lookup_prop name rest
  end.

(** [v.name] for the property names this program reads ([id], [text],
    [completed], [createdAt], [updatedAt]): a TypeError on [null] and
    [undefined], [undefined] on the other primitives and on arrays (none
    of these names is defined on their prototypes). *)
Definition get (v : jsval) (name : string) : Exc jsval :=
  match v with
  | VUndefined | VNull => Throw TypeError
  | VObj props => Return (lookup_prop name props)
  | _ => Return VUndefined
  end.

(** [a || b]. *)
Definition or_else (a b : jsval) : jsval := if truthy a then a else b.

(** A number from a length or a count. *)
Definition number_of_nat (n : nat) : float :=
  PrimFloat.of_uint63 (Uint63.of_Z (Z.of_nat n)).

(* ===================================================================== *)
(** * String.prototype functions and the regular expressions used        *)
(* ===================================================================== *)

(** White space as [String.prototype.trim] and the regular-expression
    class [\s] read it: WhiteSpace and LineTerminator code units. *)
Definition is_whitespace (c : N) : bool :=
  ((9 <=? c) && (c <=? 13) || (c =? 32) || (c =? 0xA0) || (c =? 0x1680)
   || (0x2000 <=? c) && (c <=? 0x200A) || (c =? 0x2028) || (c =? 0x2029)
   || (c =? 0x202F) || (c =? 0x205F) || (c =? 0x3000) || (c =? 0xFEFF))%N.

Fixpoint trimStart (s : jsstring) : jsstring :=
  match s with
  | c :: rest => if is_whitespace c then trimStart rest else s
  | [] => []
  end.

Definition trimEnd (s : jsstring) : jsstring := rev (trimStart (rev s)).

(** [s.trim()] *)
Definition trim (s : jsstring) : jsstring := trimEnd (trimStart s).

(** [s.replace(/\s+/g, ' ')]: every maximal run of white space becomes
    one space.  [in_run] tells that the previous unit was white space. *)
Fixpoint replace_ws_runs (in_run : bool) (s : jsstring) : jsstring :=
  match s with
  | [] => []
  | c :: rest =>
      if is_whitespace c
      then (if in_run then replace_ws_runs true rest
            else 32%N :: replace_ws_runs true rest)
      else c :: replace_ws_runs false rest
  end.

(** [s.replace(/[\r\n\t]/g, ' ')] *)
Definition replace_breaks (s : jsstring) : jsstring :=
  map (fun c => if ((c =? 13) || (c =? 10) || (c =? 9))%N then 32%N else c) s.

(** The class [[<>]]. *)
Definition is_angle_bracket (c : N) : bool := ((c =? 60) || (c =? 62))%N.

(** [s.replace(/[<>]/g, '')] *)
Definition remove_angle_brackets (s : jsstring) : jsstring :=
  List.filter (fun c => negb (is_angle_bracket c)) s.

(** [s.substring(0, n)] *)
Definition substring0 (n : nat) (s : jsstring) : jsstring := take n s.

Definition is_alnum (c : N) : bool :=
  ((97 <=? c) && (c <=? 122) || (65 <=? c) && (c <=? 90)
   || (48 <=? c) && (c <=? 57))%N.

(** The punctuation listed in the class of [allowedChars]; the double
    quote is code unit 34. *)
Definition allowed_punctuation : jsstring :=
  34%N :: js "-.,!?()[]{}:;'@#$%^&*+=_~`|\/<>".

(** One code unit against the class of [allowedChars]: letters and
    digits, [\s], the punctuation above, and the code units U+00C0 to
    U+024F and U+1E00 to U+1EFF. *)
Definition allowed_char (c : N) : bool :=
  is_alnum c || is_whitespace c
  || existsb (N.eqb c) allowed_punctuation
  || ((0xC0 <=? c) && (c <=? 0x24F))%N
  || ((0x1E00 <=? c) && (c <=? 0x1EFF))%N.

(** [allowedChars.test(value)]: the pattern is anchored at both ends, so
    every code unit has to be in the class. *)
Definition allowedChars_test (value : jsstring) : bool :=
  forallb allowed_char value.

(** [(value.match(/[^a-zA-Z0-9\s]/g) || []).length] *)
Definition specialCharCount (value : jsstring) : nat :=
  length (List.filter (fun c => negb (is_alnum c || is_whitespace c)) value).

(* ===================================================================== *)
(** * The host platform and the environment                              *)
(* ===================================================================== *)

(** Built-ins of the host that the program calls and this development
    does not fix: [JSON.parse] ([None] is a thrown SyntaxError),
    [JSON.stringify] on arrays and objects, and
    [String.prototype.toLowerCase]. *)
Class Platform : Type := {
  JSON_parse : jsstring -> option jsval;
  JSON_stringify : jsval -> jsstring;
  toLowerCase : jsstring -> jsstring
}.

(** What one call reads from the clock and the random source:
    [Date.now()], [Math.random()] and [new Date().toISOString()]. *)
Record Env : Type := {
  Date_now : float;
  Math_random : float;
  Date_toISOString : jsstring
}.

(** The task entity, as [createTask] builds it. *)
Record Task : Type := {
  id : float;
  text : jsstring;
  completed : bool;
  createdAt : jsstring;
  updatedAt : jsstring
}.

(** A task as a script value: the object literal of [createTask]. *)
Definition js_of_task (t : Task) : jsval :=
  VObj [("id", VNum (id t)); ("text", VStr (text t));
        ("completed", VBool (completed t));
        ("createdAt", VStr (createdAt t)); ("updatedAt", VStr (updatedAt t))].

Definition js_of_tasks (ts : list Task) : jsval := VArr (map js_of_task ts).

(** Reading a script value back as a task record. *)
Definition task_of_js (v : jsval) : option Task :=
  match v with
  | VObj props =>
      match lookup_prop "id" props, lookup_prop "text" props,
            lookup_prop "completed" props, lookup_prop "createdAt" props,
            lookup_prop "updatedAt" props with
      | VNum i, VStr t, VBool c, VStr ca, VStr ua =>
          Some {| id := i; text := t; completed := c;
                  createdAt := ca; updatedAt := ua |}
      | _, _, _, _, _ => None
      end
  | _ => None
  end.

Definition tasks_of_js (v : jsval) : option (list Task) :=
  match v with
  | VArr elems => mapM task_of_js elems
  | _ => None
  end.

(* ===================================================================== *)
(** * src/modules/validation.js                                           *)
(* ===================================================================== *)

Module Validation.

(** [VALIDATION_RULES.task] *)
Definition minLength : nat := 1.
Definition maxLength : nat := 200.
Definition required : bool := true.

(** The [type] of an entry of [result.errors]; its [message] and [field]
    are fixed by the type. *)
Inductive ErrorType : Type :=
| REQUIRED
| EMPTY_AFTER_TRIM
| TOO_SHORT
| TOO_LONG
| INVALID_CHARS
| DUPLICATE
| VALIDATION_ERROR.

Inductive WarningType : Type :=
| APPROACHING_LIMIT
| MANY_SPECIAL_CHARS.

Record ValidationResult : Type := {
  isValid : bool;
  errors : list ErrorType;
  warnings : list WarningType;
  cleaned : jsstring
}.

Section WithPlatform.
Context `{!Platform}.

(** [validateTaskInput(input, existingTasks)], for a string [input] and
    tasks whose [text] is a string.  On such arguments nothing in the
    [try] block throws, so the [catch] branch (the [VALIDATION_ERROR]
    result) is not taken. *)
Definition validateTaskInput (input : jsstring) (existingTasks : list Task)
  : ValidationResult :=
  let value := trim input in
  if required && negb (truthy (VStr value)) then
    {| isValid := false; errors := [REQUIRED]; warnings := []; cleaned := [] |}
  else if (length value =? 0)%nat && truthy (VStr input) && (0 <? length input)%nat then
    {| isValid := false; errors := [EMPTY_AFTER_TRIM]; warnings := [];
       cleaned := [] |}
  else
    let too_short :=
      if (length value <? minLength)%nat then [TOO_SHORT] else [] in
    let too_long :=
      if (maxLength <? length value)%nat then [TOO_LONG] else [] in
    let invalid_chars :=
      if negb (allowedChars_test value) then [INVALID_CHARS] else [] in
    let duplicate :=
      if (0 <? length existingTasks)%nat
         && existsb (fun task =>
                       str_eqb (trim (toLowerCase (text task))) (toLowerCase value))
              existingTasks
      then [DUPLICATE] else [] in
    let errors := too_short ++ too_long ++ invalid_chars ++ duplicate in
    let approaching :=
      if PrimFloat.ltb (PrimFloat.mul (number_of_nat maxLength) 0.8%float)
           (number_of_nat (length value))
      then [APPROACHING_LIMIT] else [] in
    let charRatio :=
      PrimFloat.div (number_of_nat (specialCharCount value))
        (number_of_nat (length value)) in
    let many_special :=
      if PrimFloat.ltb 0.3%float charRatio && (10 <? length value)%nat
      then [MANY_SPECIAL_CHARS] else [] in
    {| isValid := (length errors =? 0)%nat;
       errors := errors;
       warnings := approaching ++ many_special;
       cleaned := value |}.

End WithPlatform.

(** [sanitizeInput(input)] for a string [input]. *)
Definition sanitizeInput (input : jsstring) : jsstring :=
  substring0 maxLength
    (remove_angle_brackets
       (replace_breaks
          (replace_ws_runs false
             (trim input)))).

End Validation.

(* ===================================================================== *)
(** * The [localStorage] object and the effects of a call                 *)
(* ===================================================================== *)

(** The host's [localStorage]: the stored items, the quota of the origin
    ([None]: unlimited) counted in code units of keys and values, and
    whether scripts may use the storage at all.  [setItem] throws a
    QuotaExceededError when the new contents would not fit, and every
    access throws a SecurityError when the storage is disabled. *)
Record LocalStorage : Type := {
  items : gmap string jsstring;
  quota : option nat;
  enabled : bool
}.

Definition storage_size (m : gmap string jsstring) : nat :=
  map_fold (fun k v acc => String.length k + length v + acc)%nat 0%nat m.

#[global] Instance Exc_ret : MRet Exc := @Return.
#[global] Instance Exc_bind : MBind Exc := fun A B k m =>
  match m with
  | Return a => k a
  | Throw e => Throw e
  end.

(** A computation that reads and writes [localStorage] and may throw;
    what was written before a throw stays written. *)
Definition Eff (A : Type) : Type := LocalStorage -> Exc A * LocalStorage.

#[global] Instance Eff_ret : MRet Eff := fun A a ls => (Return a, ls).
#[global] Instance Eff_bind : MBind Eff := fun A B k m ls =>
  match m ls with
  | (Return a, ls') => k a ls'
  | (Throw e, ls') => (Throw e, ls')
  end.

Definition throw {A : Type} (e : Error) : Eff A := fun ls => (Throw e, ls).

(** An expression that touches no storage. *)
Definition pure_exc {A : Type} (x : Exc A) : Eff A := fun ls => (x, ls).

(** [try { body } catch (error) { handler }] *)
Definition try_catch {A : Type} (body : Eff A) (handler : Error -> Eff A) : Eff A :=
  fun ls =>
    match body ls with
    | (Return a, ls') => (Return a, ls')
    | (Throw e, ls') => handler e ls'
    end.

(** The value a computation returns from a given storage, if it returns. *)
Definition returned {A : Type} (m : Eff A) (ls : LocalStorage) : option A :=
  match fst (m ls) with
  | Return a => Some a
  | Throw _ => None
  end.

(** [localStorage.getItem(key)]; [None] is [null]. *)
Definition localStorage_getItem (key : string) : Eff (option jsstring) :=
  fun ls =>
    if enabled ls then (Return (items ls !! key), ls)
    else (Throw SecurityError, ls).

(** [localStorage.setItem(key, value)] *)
Definition localStorage_setItem (key : string) (value : jsstring) : Eff unit :=
  fun ls =>
    if negb (enabled ls) then (Throw SecurityError, ls)
    else
      let items' := <[key := value]> (items ls) in
      match quota ls with
      | Some q =>
          if (q <? storage_size items')%nat then (Throw QuotaExceededError, ls)
          else (Return tt, {| items := items'; quota := quota ls; enabled := enabled ls |})
      | None =>
          (Return tt, {| items := items'; quota := quota ls; enabled := enabled ls |})
      end.

(** [array.filter(callback)] for a callback that may throw. *)
Fixpoint Array_filter (callback : jsval -> Exc bool) (elems : list jsval)
  : Exc (list jsval) :=
  match elems with
  | [] => Return []
  | x :: rest =>
      keep ← callback x;
      kept ← Array_filter callback rest;
      Return (if keep : bool then x :: kept else kept)
  end.

(** The elements of an array value. *)
Definition elements (v : jsval) : list jsval :=
  match v with VArr elems => elems | _ => [] end.

(** [localStorage.removeItem(key)] *)
Definition localStorage_removeItem (key : string) : Eff unit :=
  fun ls =>
    if negb (enabled ls) then (Throw SecurityError, ls)
    else
      (Return tt,
       {| items := delete key (items ls); quota := quota ls; enabled := enabled ls |}).

(** The own enumerable properties that a spread [{...v}] copies: those
    of an object, the indexed elements of an array, the indexed units of
    a string, none for the other primitives.  (An engine lists
    integer-like keys first; here such keys stay where they were
    written, and the statements read properties by name.) *)
Definition own_props (v : jsval) : list (string * jsval) :=
  match v with
  | VObj props => props
  | VArr elems => imap (fun i x => (pretty i, x)) elems
  | VStr s => imap (fun i c => (pretty i, VStr [c])) s
  | _ => []
  end.

(** Defining a property on an object literal under construction: an
    existing key keeps its place and takes the new value. *)
Fixpoint set_prop (name : string) (v : jsval) (props : list (string * jsval))
  : list (string * jsval) :=
  match props with
  | [] => [(name, v)]
  | (k, x) :: rest =>
      if String.eqb k name then (k, v) :: rest else (k, x) :: set_prop name v rest
  end.

(** [{...target, ...source}] continued from the properties [target]. *)
Definition spread (target : list (string * jsval)) (source : jsval)
  : list (string * jsval) :=
  fold_left (fun acc kv => set_prop (fst kv) (snd kv) acc) (own_props source) target.

Definition is_high_surrogate (c : N) : bool := ((0xD800 <=? c) && (c <=? 0xDBFF))%N.
Definition is_low_surrogate (c : N) : bool := ((0xDC00 <=? c) && (c <=? 0xDFFF))%N.

(** [new Blob([s]).size]: the number of bytes of [s] in UTF-8, a lone
    surrogate counting as U+FFFD. *)
Fixpoint Blob_size (s : jsstring) : nat :=
  match s with
  | [] => 0
  | c :: rest =>
      if (c <? 0x80)%N then S (Blob_size rest)
      else if (c <? 0x800)%N then 2 + Blob_size rest
      else if is_high_surrogate c then
        match rest with
        | d :: rest' =>
            if is_low_surrogate d then 4 + Blob_size rest' else 3 + Blob_size rest
        | [] => 3
        end
      else 3 + Blob_size rest
  end%nat.

(* ===================================================================== *)
(** * src/modules/storage.js                                              *)
(* ===================================================================== *)

Module Storage.

Definition STORAGE_KEY : string := "taskflow_tasks".
Definition SETTINGS_KEY : string := "taskflow_settings".
Definition META_KEY : string := STORAGE_KEY ++ "_meta".

(** The callback of [tasks.filter] in [saveTasks]:
    [task && typeof task === 'object' && typeof task.id === 'number' &&
     typeof task.text === 'string' && typeof task.completed === 'boolean'],
    with the short-circuit of [&&]. *)
Definition valid_task (task : jsval) : Exc bool :=
  if negb (truthy task) then Return false
  else if negb (String.eqb (typeof task) "object") then Return false
  else
    task_id ← get task "id";
    if negb (String.eqb (typeof task_id) "number") then Return false
    else
      task_text ← get task "text";
      if negb (String.eqb (typeof task_text) "string") then Return false
      else
        task_completed ← get task "completed";
        Return (String.eqb (typeof task_completed) "boolean").

(** The callback of [tasks.map] in [loadTasks]. *)
Definition with_defaults (env : Env) (task : jsval) : Exc jsval :=
  task_id ← get task "id";
  task_text ← get task "text";
  task_completed ← get task "completed";
  task_createdAt ← get task "createdAt";
  task_updatedAt ← get task "updatedAt";
  Return (VObj
    [("id", or_else task_id (VNum (Date_now env)));
     ("text", or_else task_text (VStr []));
     ("completed", VBool (truthy task_completed));
     ("createdAt", or_else task_createdAt (VStr (Date_toISOString env)));
     ("updatedAt", or_else (or_else task_updatedAt task_createdAt)
                     (VStr (Date_toISOString env)))]).

(** [getDefaultSettings()] *)
Definition getDefaultSettings : jsval :=
  VObj [("theme", VStr (js "light"));
        ("filter", VStr (js "all"));
        ("sortBy", VStr (js "createdAt"));
        ("sortOrder", VStr (js "desc"))].

(** The object that [getStorageStats] returns; the four counts are
    lengths and sizes. *)
Record StorageStats : Type := {
  taskCount : nat;
  completedCount : nat;
  activeCount : nat;
  storageSize : nat;
  lastModified : jsval;
  version : jsval
}.

Definition js_of_stats (stats : StorageStats) : jsval :=
  VObj [("taskCount", VNum (number_of_nat (taskCount stats)));
        ("completedCount", VNum (number_of_nat (completedCount stats)));
        ("activeCount", VNum (number_of_nat (activeCount stats)));
        ("storageSize", VNum (number_of_nat (storageSize stats)));
        ("lastModified", lastModified stats);
        ("version", version stats)].

(** [task => task.completed] and [task => !task.completed] *)
Definition is_completed (task : jsval) : Exc bool :=
  task_completed ← get task "completed";
  Return (truthy task_completed).

Definition is_active (task : jsval) : Exc bool :=
  task_completed ← get task "completed";
  Return (negb (truthy task_completed)).

Section WithPlatform.
Context `{!Platform}.

(** [saveTasks(tasks)]: the result is the returned boolean. *)
Definition saveTasks (tasks : jsval) (env : Env) : Eff bool :=
  try_catch
    (_ ← (if negb (Array_isArray tasks)
           then throw (UserError "Tasks must be an array")
           else mret tt);
     validTasks ← pure_exc (Array_filter valid_task (elements tasks));
     let serializedData := JSON_stringify (VArr validTasks) in
     _ ← localStorage_setItem STORAGE_KEY serializedData;
     let metadata :=
       VObj [("lastModified", VStr (Date_toISOString env));
             ("version", VStr (js "1.0.0"));
             ("taskCount", VNum (number_of_nat (length validTasks)))] in
     _ ← localStorage_setItem META_KEY (JSON_stringify metadata);
     mret true)
    (fun error => mret false).

(** [loadTasks()]: the result is the returned array. *)
Definition loadTasks (env : Env) : Eff (list jsval) :=
  try_catch
    (stored ← localStorage_getItem STORAGE_KEY;
     match stored with
     | None => mret []
     | Some stored =>
         if negb (truthy (VStr stored)) then mret []
         else
           tasks ← pure_exc (match JSON_parse stored with
                             | Some v => Return v
                             | None => Throw SyntaxError
                             end);
           if negb (Array_isArray tasks) then mret []
           else pure_exc (mapM (with_defaults env) (elements tasks))
     end)
    (fun error => mret []).

(** [saveSettings(settings)], for a value that [JSON.stringify] turns
    into a text (anything but [undefined]). *)
Definition saveSettings (settings : jsval) : Eff bool :=
  try_catch
    (let serializedData := JSON_stringify settings in
     _ ← localStorage_setItem SETTINGS_KEY serializedData;
     mret true)
    (fun error => mret false).

(** [loadSettings()] *)
Definition loadSettings : Eff jsval :=
  try_catch
    (stored ← localStorage_getItem SETTINGS_KEY;
     match stored with
     | None => mret getDefaultSettings
     | Some stored =>
         if negb (truthy (VStr stored)) then mret getDefaultSettings
         else
           settings ← pure_exc (match JSON_parse stored with
                                | Some v => Return v
                                | None => Throw SyntaxError
                                end);
           mret (VObj (spread (spread [] getDefaultSettings) settings))
     end)
    (fun error => mret getDefaultSettings).

(** [clearStorage()] *)
Definition clearStorage : Eff bool :=
  try_catch
    (_ ← localStorage_removeItem STORAGE_KEY;
     _ ← localStorage_removeItem META_KEY;
     _ ← localStorage_removeItem SETTINGS_KEY;
     mret true)
    (fun error => mret false).

(** [getStorageStats()] *)
Definition getStorageStats (env : Env) : Eff StorageStats :=
  try_catch
    (tasks ← loadTasks env;
     metaData ← localStorage_getItem META_KEY;
     meta ← pure_exc (match metaData with
                      | Some text =>
                          if truthy (VStr text) then
                            match JSON_parse text with
                            | Some v => Return v
                            | None => Throw SyntaxError
                            end
                          else Return (VObj [])
                      | None => Return (VObj [])
                      end);
     tasksText ← localStorage_getItem STORAGE_KEY;
     let tasksSize := Blob_size (default [] tasksText) in
     settingsText ← localStorage_getItem SETTINGS_KEY;
     let settingsSize := Blob_size (default [] settingsText) in
     completedTasks ← pure_exc (Array_filter is_completed tasks);
     activeTasks ← pure_exc (Array_filter is_active tasks);
     meta_lastModified ← pure_exc (get meta "lastModified");
     meta_version ← pure_exc (get meta "version");
     mret {| taskCount := length tasks;
             completedCount := length completedTasks;
             activeCount := length activeTasks;
             storageSize := tasksSize + settingsSize;
             lastModified := or_else meta_lastModified VNull;
             version := or_else meta_version (VStr (js "1.0.0")) |})
    (fun error =>
       mret {| taskCount := 0; completedCount := 0; activeCount := 0;
               storageSize := 0; lastModified := VNull;
               version := VStr (js "1.0.0") |}).

(** [exportTasks()]; [VNull] is the [null] of the [catch] branch. *)
Definition exportTasks (env : Env) : Eff jsval :=
  try_catch
    (tasks ← loadTasks env;
     settings ← loadSettings;
     stats ← getStorageStats env;
     mret (VObj [("version", VStr (js "1.0.0"));
                 ("exportedAt", VStr (Date_toISOString env));
                 ("tasks", VArr tasks);
                 ("settings", settings);
                 ("stats", js_of_stats stats)]))
    (fun error => mret VNull).

(** [importTasks(data)] *)
Definition importTasks (data : jsval) (env : Env) : Eff bool :=
  try_catch
    (_ ← (if negb (truthy data) || negb (String.eqb (typeof data) "object")
           then throw (UserError "Invalid import data")
           else mret tt);
     data_tasks ← pure_exc (get data "tasks");
     _ ← (if truthy data_tasks && Array_isArray data_tasks
           then _ ← saveTasks data_tasks env; mret tt
           else mret tt);
     data_settings ← pure_exc (get data "settings");
     _ ← (if truthy data_settings && String.eqb (typeof data_settings) "object"
           then _ ← saveSettings data_settings; mret tt
           else mret tt);
     mret true)
    (fun error => mret false).

(** [isStorageAvailable()] *)
Definition isStorageAvailable : Eff bool :=
  try_catch
    (let test := "__storage_test__" in
     _ ← localStorage_setItem test (js test);
     _ ← localStorage_removeItem test;
     mret true)
    (fun error => mret false).

End WithPlatform.

End Storage.

(* ===================================================================== *)
(** * src/modules/render.js                                               *)
(* ===================================================================== *)

Module Render.

(** [filterTasks(tasks, filter)] *)
Definition filterTasks (tasks : list Task) (currentFilter : string) : list Task :=
  if String.eqb currentFilter "active" then
    List.filter (fun task => negb (completed task)) tasks
  else if String.eqb currentFilter "completed" then
    List.filter (fun task => completed task) tasks
  else tasks.

(** The replacement that [escapeHTML] makes for one code unit: the
    entity of an ampersand, an angle bracket, a double quote (code unit
    34) or an apostrophe, and the unit itself otherwise. *)
Definition escape_entity (c : N) : jsstring :=
  if (c =? 38)%N then js "&amp;"
  else if (c =? 60)%N then js "&lt;"
  else if (c =? 62)%N then js "&gt;"
  else if (c =? 34)%N then js "&quot;"
  else if (c =? 39)%N then js "&#39;"
  else [c].

(** [escapeHTML(str)] for a string [str]. *)
Definition escapeHTML (str : jsstring) : jsstring := flat_map escape_entity str.

(** [updateEmptyStateMessage(emptyState, filter, totalTasks)]: the title
    and the description it writes, when the two elements exist. *)
Definition updateEmptyStateMessage (currentFilter : string) (totalTasks : nat)
  : string * string :=
  if String.eqb currentFilter "active" then
    (if (totalTasks =? 0)%nat then "No tasks yet" else "All tasks completed!",
     if (totalTasks =? 0)%nat then "Add your first task above to get started!"
     else "Great job! You've completed all your tasks.")
  else if String.eqb currentFilter "completed" then
    ("No completed tasks", "Complete some tasks to see them here.")
  else
    ("No tasks yet", "Add your first task above to get started!").

(** What [updateTaskCounters(tasks)] writes, when the elements exist:
    the three counters, the text of the main counter, and the [display]
    style of the clear-completed button. *)
Record TaskCounters : Type := {
  allCount : nat;
  activeCount : nat;
  completedCount : nat;
  taskCounter : string;
  clearCompletedDisplay : string
}.

(** [updateTaskCounters(tasks)] *)
Definition updateTaskCounters (tasks : list Task) : TaskCounters :=
  let allCount := length tasks in
  let activeCount := length (List.filter (fun task => negb (completed task)) tasks) in
  let completedCount := length (List.filter (fun task => completed task) tasks) in
  let taskText := if (allCount =? 1)%nat then "task" else "tasks" in
  {| allCount := allCount;
     activeCount := activeCount;
     completedCount := completedCount;
     taskCounter := pretty allCount ++ " " ++ taskText;
     clearCompletedDisplay := if (0 <? completedCount)%nat then "flex" else "none" |}.

End Render.

(* ===================================================================== *)
(** * src/app.js: the [TaskFlowApp] class                                 *)
(* ===================================================================== *)

Module App.

Import Validation Storage.

(** The fields of a [TaskFlowApp] that its task operations read or
    write.  [tasks] holds records of the shape [createTask] builds;
    values of other shapes, which [loadTasks] can return from a storage
    written by other code, are outside this model.  [history] holds the
    JSON texts pushed by [saveState].  The DOM side ([render],
    [showNotification], the modal) is not modelled: it reads the store
    and writes none of these fields. *)
Record TaskFlowApp : Type := {
  tasks : list Task;
  history : list jsstring;
  historyIndex : Z
}.

(** The state the constructor leaves. *)
Definition constructor : TaskFlowApp :=
  {| tasks := []; history := []; historyIndex := -1 |}.

Definition set_tasks (ts : list Task) (this : TaskFlowApp) : TaskFlowApp :=
  {| tasks := ts; history := history this; historyIndex := historyIndex this |}.

(** [t => t.id === taskId] *)
Definition has_id (taskId : float) (t : Task) : bool :=
  PrimFloat.eqb (id t) taskId.

(** An assignment to fields of the object that [tasks.find] returned:
    the first element that satisfies [p] is replaced by its update. *)
Fixpoint update_found (p : Task -> bool) (f : Task -> Task) (ts : list Task)
  : list Task :=
  match ts with
  | [] => []
  | t :: rest => if p t then f t :: rest else t :: update_found p f rest
  end.

(** [tasks.splice(tasks.findIndex(p), 1)] when an element satisfies [p]. *)
Fixpoint splice_found (p : Task -> bool) (ts : list Task) : list Task :=
  match ts with
  | [] => []
  | t :: rest => if p t then rest else t :: splice_found p rest
  end.

(** [createTask(text)] *)
Definition createTask (text : jsstring) (env : Env) : Task :=
  {| id := PrimFloat.add (Date_now env) (Math_random env);
     text := sanitizeInput text;
     completed := false;
     createdAt := Date_toISOString env;
     updatedAt := Date_toISOString env |}.

Section WithPlatform.
Context `{!Platform}.

(** [saveState()] *)
Definition saveState (this : TaskFlowApp) : TaskFlowApp :=
  let currentState := JSON_stringify (js_of_tasks (tasks this)) in
  let pushed := history this ++ [currentState] in
  let limited := if (50 <? length pushed)%nat then tail pushed else pushed in
  {| tasks := tasks this;
     history := limited;
     historyIndex := Z.of_nat (length limited) - 1 |}.

(** [saveData()]: the toast shown on failure is not modelled. *)
Definition saveData (env : Env) (this : TaskFlowApp) : Eff unit :=
  _ ← saveTasks (js_of_tasks (tasks this)) env;
  mret tt.

(** [addTask(task)] *)
Definition addTask (task : Task) (env : Env) (this : TaskFlowApp)
  : Eff TaskFlowApp :=
  let this := saveState this in
  let this := set_tasks (task :: tasks this) this in
  _ ← saveData env this;
  mret this.

(** [handleTaskSubmit(e)] with [inputValue] the value of the input
    field. *)
Definition handleTaskSubmit (inputValue : jsstring) (env : Env)
  (this : TaskFlowApp) : Eff TaskFlowApp :=
  let validation := validateTaskInput inputValue (tasks this) in
  if negb (isValid validation) then mret this
  else
    let newTask := createTask (cleaned validation) env in
    addTask newTask env this.

(** [toggleTask(taskId)] *)
Definition toggleTask (taskId : float) (env : Env) (this : TaskFlowApp)
  : Eff TaskFlowApp :=
  let this := saveState this in
  match find (has_id taskId) (tasks this) with
  | Some task =>
      let this :=
        set_tasks
          (update_found (has_id taskId)
             (fun task =>
                {| id := id task; text := text task;
                   completed := negb (completed task);
                   createdAt := createdAt task;
                   updatedAt := Date_toISOString env |})
             (tasks this)) this in
      _ ← saveData env this;
      mret this
  | None => mret this
  end.

(** [deleteTask(taskId)] *)
Definition deleteTask (taskId : float) (env : Env) (this : TaskFlowApp)
  : Eff TaskFlowApp :=
  let this := saveState this in
  match find (has_id taskId) (tasks this) with
  | Some _ =>
      let this := set_tasks (splice_found (has_id taskId) (tasks this)) this in
      _ ← saveData env this;
      mret this
  | None => mret this
  end.

(** [editTask(taskId)] with [answer] what [prompt] returns ([None] is
    [null], the dialog cancelled). *)
Definition editTask (taskId : float) (answer : option jsstring) (env : Env)
  (this : TaskFlowApp) : Eff TaskFlowApp :=
  match find (has_id taskId) (tasks this) with
  | None => mret this
  | Some task =>
      match answer with
      | Some newText =>
          if negb (str_eqb (trim newText) (text task)) then
            let validation :=
              validateTaskInput newText
                (List.filter (fun t => negb (has_id taskId t)) (tasks this)) in
            if isValid validation then
              let this := saveState this in
              let this :=
                set_tasks
                  (update_found (has_id taskId)
                     (fun task =>
                        {| id := id task; text := cleaned validation;
                           completed := completed task;
                           createdAt := createdAt task;
                           updatedAt := Date_toISOString env |})
                     (tasks this)) this in
              _ ← saveData env this;
              mret this
            else mret this
          else mret this
      | None => mret this
      end
  end.

(** [clearCompletedTasks()] with [confirmed] telling whether the user
    confirms in the modal. *)
Definition clearCompletedTasks (confirmed : bool) (env : Env)
  (this : TaskFlowApp) : Eff TaskFlowApp :=
  let completedCount := length (List.filter completed (tasks this)) in
  if (completedCount =? 0)%nat then mret this
  else if confirmed then
    let this := saveState this in
    let this :=
      set_tasks (List.filter (fun t => negb (completed t)) (tasks this)) this in
    _ ← saveData env this;
    mret this
  else mret this.

(** [toggleAllTasks()] *)
Definition toggleAllTasks (env : Env) (this : TaskFlowApp) : Eff TaskFlowApp :=
  let allCompleted := forallb completed (tasks this) in
  let this := saveState this in
  let this :=
    set_tasks
      (map (fun task =>
              {| id := id task; text := text task;
                 completed := negb allCompleted;
                 createdAt := createdAt task;
                 updatedAt := Date_toISOString env |})
         (tasks this)) this in
  _ ← saveData env this;
  mret this.

(** [undo()].  [JSON.parse] throws a SyntaxError on a text it cannot
    read (and on [undefined], an index outside [history]); nothing in
    [undo] catches it.  A parsed value that is not an array of task
    records cannot be held by the typed [tasks] field and is reported as
    a TypeError here; [saveState] never pushes such a text. *)
Definition undo (env : Env) (this : TaskFlowApp) : Eff TaskFlowApp :=
  if (0 <? historyIndex this)%Z then
    let index := (historyIndex this - 1)%Z in
    parsed ← pure_exc (match history this !! Z.to_nat index with
                       | Some snapshot =>
                           match JSON_parse snapshot with
                           | Some v => Return v
                           | None => Throw SyntaxError
                           end
                       | None => Throw SyntaxError
                       end);
    restored ← pure_exc (match tasks_of_js parsed with
                         | Some ts => Return ts
                         | None => Throw TypeError
                         end);
    let this :=
      {| tasks := restored; history := history this; historyIndex := index |} in
    _ ← saveData env this;
    mret this
  else mret this.

End WithPlatform.

End App.

(* ===================================================================== *)
(** * A reference platform                                                *)
(* ===================================================================== *)

(** An executable [Platform]: a JSON printer and a recursive-descent JSON
    reader over code units, and a lower-casing of the Basic Latin and
    Latin-1 capitals.  It serves to run the program on concrete inputs;
    the general theorems below hold for every [Platform]. *)
Module Reference.

Definition digit_value (c : N) : option N :=
  if ((48 <=? c) && (c <=? 57))%N then Some (c - 48)%N else None.

Definition hex_value (c : N) : option N :=
  if ((48 <=? c) && (c <=? 57))%N then Some (c - 48)%N
  else if ((97 <=? c) && (c <=? 102))%N then Some (c - 87)%N
  else if ((65 <=? c) && (c <=? 70))%N then Some (c - 55)%N
  else None.

Definition hex_digit (n : N) : N :=
  if (n <? 10)%N then (48 + n)%N else (87 + n)%N.

(** *** Printing *)

Definition print_digits (n : N) : jsstring := js (pretty n).

Fixpoint strip_zeros_rev (s : jsstring) : jsstring :=
  match s with
  | 48%N :: rest => strip_zeros_rev rest
  | _ => s
  end.

(** The exact decimal expansion of a finite number; [null] for the
    others, as [JSON.stringify] prints them. *)
Definition print_number (x : float) : jsstring :=
  match Prim2SF x with
  | S754_zero _ => js "0"
  | S754_infinity _ | S754_nan => js "null"
  | S754_finite s m e =>
      (if s then js "-" else []) ++
      (if (0 <=? e)%Z then print_digits (Npos m * 2 ^ Z.to_N e)
       else
         let k := Z.to_nat (- e) in
         let ds := print_digits (Npos m * 5 ^ N.of_nat k) in
         let ds := repeat 48%N (S k - length ds) ++ ds in
         let int_part := take (length ds - k) ds in
         let frac_part := rev (strip_zeros_rev (rev (drop (length ds - k) ds))) in
         match frac_part with
         | [] => int_part
         | _ => int_part ++ js "." ++ frac_part
         end)
  end.

Definition print_char (c : N) : jsstring :=
  if (c =? 34)%N then [92; 34]%N
  else if (c =? 92)%N then [92; 92]%N
  else if (c <? 32)%N then
    js "\u00" ++ [hex_digit (c / 16); hex_digit (c mod 16)]
  else [c].

Definition print_string (s : jsstring) : jsstring :=
  [34%N] ++ flat_map print_char s ++ [34%N].

Fixpoint join_with (sep : jsstring) (parts : list jsstring) : jsstring :=
  match parts with
  | [] => []
  | [p] => p
  | p :: rest => p ++ sep ++ join_with sep rest
  end.

Definition is_undefined (v : jsval) : bool :=
  match v with VUndefined => true | _ => false end.

(** A property whose value is [undefined] is left out of an object; an
    [undefined] element of an array prints as [null]. *)
Fixpoint print_value (v : jsval) : jsstring :=
  match v with
  | VUndefined | VNull => js "null"
  | VBool true => js "true"
  | VBool false => js "false"
  | VNum n => print_number n
  | VStr s => print_string s
  | VArr elems => js "[" ++ join_with (js ",") (map print_value elems) ++ js "]"
  | VObj props =>
      js "{" ++
      join_with (js ",")
        (flat_map (fun kv =>
                     match kv with
                     | (k, v) =>
                         if is_undefined v then []
                         else [print_string (js k) ++ js ":" ++ print_value v]
                     end) props)
      ++ js "}"
  end.

(** *** Reading *)

Fixpoint skip_ws (s : jsstring) : jsstring :=
  match s with
  | c :: rest =>
      if ((c =? 32) || (c =? 9) || (c =? 10) || (c =? 13))%N then skip_ws rest else s
  | [] => []
  end.

Fixpoint strip_prefix (p s : jsstring) : option jsstring :=
  match p, s with
  | [], _ => Some s
  | a :: p', b :: s' => if (a =? b)%N then strip_prefix p' s' else None
  | _ :: _, [] => None
  end.

(** The digits at the head of [s]: their value, their number, the rest. *)
Fixpoint read_digits (acc : N) (count : nat) (s : jsstring) : N * nat * jsstring :=
  match s with
  | c :: rest =>
      match digit_value c with
      | Some d => read_digits (10 * acc + d)%N (S count) rest
      | None => (acc, count, s)
      end
  | [] => (acc, count, s)
  end.

(** The number [(-1)^neg * m * 10^e], rounded to the nearest float (ties
    to even); a sticky bit below the quotient keeps the rounding exact. *)
Definition decimal_to_float (neg : bool) (m : N) (e : Z) : float :=
  let sign (z : Z) := if neg then (- z)%Z else z in
  if (0 <=? e)%Z then
    SF2Prim (binary_normalize prec emax (sign (Z.of_N m * 10 ^ e)%Z) 0 neg)
  else
    let d := (10 ^ (- e))%Z in
    let s := (Z.log2 d + 64)%Z in
    let n := (Z.of_N m * 2 ^ s)%Z in
    let sticky := if (n mod d =? 0)%Z then 0%Z else 1%Z in
    SF2Prim (binary_normalize prec emax (sign (2 * (n / d) + sticky)%Z) (- s - 1) neg).

Definition read_number (s : jsstring) : option (float * jsstring) :=
  let (neg, s) :=
    match s with
    | 45%N :: rest => (true, rest)
    | _ => (false, s)
    end in
  let '(int_value, int_count, s) := read_digits 0 0 s in
  if (int_count =? 0)%nat then None
  else
    let '(m, frac_count, s) :=
      match s with
      | 46%N :: rest => read_digits int_value 0 rest
      | _ => (int_value, 0%nat, s)
      end in
    let '(e, s) :=
      match s with
      | c :: rest =>
          if ((c =? 101) || (c =? 69))%N then
            let '(eneg, rest) :=
              match rest with
              | 45%N :: r => (true, r)
              | 43%N :: r => (false, r)
              | _ => (false, rest)
              end in
            let '(ev, _, rest) := read_digits 0 0 rest in
            ((if eneg : bool then - Z.of_N ev else Z.of_N ev)%Z, rest)
          else (0%Z, s)
      | [] => (0%Z, s)
      end in
    Some (decimal_to_float neg m (e - Z.of_nat frac_count), s).

(** The body of a string literal, after the opening quote. *)
Fixpoint read_string (fuel : nat) (s : jsstring) : option (jsstring * jsstring) :=
  match fuel with
  | O => None
  | S fuel =>
      match s with
      | [] => None
      | 34%N :: rest => Some ([], rest)
      | 92%N :: 117%N :: a :: b :: c :: d :: rest =>
          match hex_value a, hex_value b, hex_value c, hex_value d with
          | Some a, Some b, Some c, Some d =>
              match read_string fuel rest with
              | Some (str, rest') =>
                  Some ((4096 * a + 256 * b + 16 * c + d)%N :: str, rest')
              | None => None
              end
          | _, _, _, _ => None
          end
      | 92%N :: e :: rest =>
          let unit :=
            if (e =? 110)%N then Some 10%N
            else if (e =? 116)%N then Some 9%N
            else if (e =? 114)%N then Some 13%N
            else if (e =? 98)%N then Some 8%N
            else if (e =? 102)%N then Some 12%N
            else if ((e =? 34) || (e =? 92) || (e =? 47))%N then Some e
            else None in
          match unit, read_string fuel rest with
          | Some u, Some (str, rest') => Some (u :: str, rest')
          | _, _ => None
          end
      | c :: rest =>
          if (c <? 32)%N then None
          else
            match read_string fuel rest with
            | Some (str, rest') => Some (c :: str, rest')
            | None => None
            end
      end
  end.

Definition string_of_js (s : jsstring) : string :=
  string_of_list_ascii (map ascii_of_N s).

Fixpoint read_value (fuel : nat) (s : jsstring) {struct fuel}
  : option (jsval * jsstring) :=
  match fuel with
  | O => None
  | S fuel =>
      let s := skip_ws s in
      match s with
      | [] => None
      | 34%N :: rest =>
          match read_string (length rest) rest with
          | Some (str, rest') => Some (VStr str, rest')
          | None => None
          end
      | 91%N :: rest =>
          match skip_ws rest with
          | 93%N :: rest' => Some (VArr [], rest')
          | _ =>
              match read_elements fuel rest with
              | Some (elems, rest') => Some (VArr elems, rest')
              | None => None
              end
          end
      | 123%N :: rest =>
          match skip_ws rest with
          | 125%N :: rest' => Some (VObj [], rest')
          | _ =>
              match read_members fuel rest with
              | Some (props, rest') => Some (VObj props, rest')
              | None => None
              end
          end
      | _ =>
          match strip_prefix (js "null") s, strip_prefix (js "true") s,
                strip_prefix (js "false") s with
          | Some rest, _, _ => Some (VNull, rest)
          | _, Some rest, _ => Some (VBool true, rest)
          | _, _, Some rest => Some (VBool false, rest)
          | _, _, _ =>
              match read_number s with
              | Some (n, rest) => Some (VNum n, rest)
              | None => None
              end
          end
      end
  end
with read_elements (fuel : nat) (s : jsstring) {struct fuel}
  : option (list jsval * jsstring) :=
  match fuel with
  | O => None
  | S fuel =>
      match read_value fuel s with
      | Some (v, rest) =>
          match skip_ws rest with
          | 44%N :: rest' =>
              match read_elements fuel rest' with
              | Some (vs, rest'') => Some (v :: vs, rest'')
              | None => None
              end
          | 93%N :: rest' => Some ([v], rest')
          | _ => None
          end
      | None => None
      end
  end
with read_members (fuel : nat) (s : jsstring) {struct fuel}
  : option (list (string * jsval) * jsstring) :=
  match fuel with
  | O => None
  | S fuel =>
      match skip_ws s with
      | 34%N :: rest =>
          match read_string (length rest) rest with
          | Some (key, rest) =>
              match skip_ws rest with
              | 58%N :: rest =>
                  match read_value fuel rest with
                  | Some (v, rest) =>
                      match skip_ws rest with
                      | 44%N :: rest' =>
                          match read_members fuel rest' with
                          | Some (ps, rest'') =>
                              Some ((string_of_js key, v) :: ps, rest'')
                          | None => None
                          end
                      | 125%N :: rest' => Some ([(string_of_js key, v)], rest')
                      | _ => None
                      end
                  | None => None
                  end
              | _ => None
              end
          | None => None
          end
      | _ => None
      end
  end.

Definition parse (s : jsstring) : option jsval :=
  match read_value (2 * length s + 4) s with
  | Some (v, rest) =>
      match skip_ws rest with
      | [] => Some v
      | _ => None
      end
  | None => None
  end.

Definition lower_char (c : N) : N :=
  if ((65 <=? c) && (c <=? 90))%N then (c + 32)%N
  else if ((0xC0 <=? c) && (c <=? 0xDE) && negb (c =? 0xD7))%N then (c + 32)%N
  else c.

Definition platform : Platform :=
  {| JSON_parse := parse;
     JSON_stringify := print_value;
     toLowerCase := map lower_char |}.

End Reference.

(* ===================================================================== *)
(** * Predicates of the statements and sample inputs                      *)
(* ===================================================================== *)

(** A task that [loadTasks] returns as stored: each [x || default] of
    [loadTasks] keeps [x], that is, the [id] is a truthy number and the
    two timestamps are non-empty strings. *)
Definition storable (t : Task) : Prop :=
  number_truthy (id t) = true /\ createdAt t <> [] /\ updatedAt t <> [].

(** A string that does not begin, or does not end, with white space. *)
Definition starts_clean (s : jsstring) : Prop :=
  match s with
  | c :: _ => is_whitespace c = false
  | [] => True
  end.

Definition ends_clean (s : jsstring) : Prop := starts_clean (rev s).

(** No two of the numbers are [===]. *)
Fixpoint distinct_numbers (l : list float) : Prop :=
  match l with
  | [] => True
  | x :: rest =>
      Forall (fun y => PrimFloat.eqb y x = false) rest /\ distinct_numbers rest
  end.

(** No two tasks of the list share an id. *)
Definition distinct_ids (ts : list Task) : Prop := distinct_numbers (map id ts).

(** A code unit that opens or closes a tag or an attribute value: an
    angle bracket, a double quote (code unit 34) or an apostrophe. *)
Definition is_markup (c : N) : bool :=
  ((c =? 60) || (c =? 62) || (c =? 34) || (c =? 39))%N.

(** An element of the array that [loadTasks] returns: an object whose
    [completed] is a boolean. *)
Definition loaded_task (v : jsval) : Prop :=
  exists props b, v = VObj props /\ lookup_prop "completed" props = VBool b.


(** The operations of the store that change the tasks, as values. *)
Inductive Mutation : Type :=
| AddTask (task : Task)
| ToggleTask (taskId : float)
| DeleteTask (taskId : float)
| EditTask (taskId : float) (answer : option jsstring)
| ClearCompletedTasks (confirmed : bool)
| ToggleAllTasks.

(** The condition under which an operation brings no id that the store
    already has: the task given to [addTask] has an id of its own. *)
Definition fresh_for (m : Mutation) (ts : list Task) : Prop :=
  match m with
  | AddTask task => Forall (fun t => App.has_id (id task) t = false) ts
  | _ => True
  end.

(** A storage that accepts every write. *)
Definition unlimited (ls : LocalStorage) : Prop :=
  enabled ls = true /\ quota ls = None.

Section Runs.
Context `{!Platform}.

Definition apply_mutation (m : Mutation) (env : Env) (this : App.TaskFlowApp)
  : Eff App.TaskFlowApp :=
  match m with
  | AddTask task => App.addTask task env this
  | ToggleTask taskId => App.toggleTask taskId env this
  | DeleteTask taskId => App.deleteTask taskId env this
  | EditTask taskId answer => App.editTask taskId answer env this
  | ClearCompletedTasks confirmed => App.clearCompletedTasks confirmed env this
  | ToggleAllTasks => App.toggleAllTasks env this
  end.

(** What the validator asks of a trimmed value, against the tasks it is
    compared with: not empty, at most 200 code units, every code unit in
    the allowed class, and not the trimmed text of one of the tasks once
    both are in lower case. *)
Definition acceptable (value : jsstring) (existingTasks : list Task) : Prop :=
  value <> []
  /\ (length value <= 200)%nat
  /\ allowedChars_test value = true
  /\ Forall (fun task => trim (toLowerCase (text task)) <> toLowerCase value)
       existingTasks.

(** A sequence of operations, each with the environment of its call. *)
Fixpoint apply_all (ms : list (Mutation * Env)) (this : App.TaskFlowApp)
  : Eff App.TaskFlowApp :=
  match ms with
  | [] => mret this
  | (m, env) :: rest => this' ← apply_mutation m env this; apply_all rest this'
  end.

(** [n] calls of [undo]. *)
Fixpoint repeat_undo (n : nat) (env : Env) (this : App.TaskFlowApp)
  : Eff App.TaskFlowApp :=
  match n with
  | O => mret this
  | S n => this' ← App.undo env this; repeat_undo n env this'
  end.

(** The text that [saveState] pushes for a list of tasks. *)
Definition snapshot (ts : list Task) : jsstring := JSON_stringify (js_of_tasks ts).

(** The host's [JSON.parse] reads back the snapshot of [ts]. *)
Definition round_trips (ts : list Task) : Prop :=
  JSON_parse (snapshot ts) = Some (js_of_tasks ts).

(** The history holds the snapshots of [states], oldest first, and
    [historyIndex] is the index of the last one. *)
Definition trail (states : list (list Task)) (this : App.TaskFlowApp) : Prop :=
  App.history this = map snapshot states
  /\ App.historyIndex this = (Z.of_nat (length states) - 1)%Z.

(** The tasks key of the storage holds the snapshot of the tasks in
    memory. *)
Definition synced (this : App.TaskFlowApp) (ls : LocalStorage) : Prop :=
  items ls !! Storage.STORAGE_KEY = Some (snapshot (App.tasks this)).

End Runs.

Module Samples.

Definition iso0 : jsstring := js "2024-01-01T00:00:00.000Z".

(** Two readings of the clock within one millisecond, with different
    values of [Math.random()]. *)
Definition env0 : Env :=
  {| Date_now := 1700000000000%float; Math_random := 0.5%float;
     Date_toISOString := js "2024-06-01T12:00:00.000Z" |}.

Definition env1 : Env :=
  {| Date_now := 1700000000000%float; Math_random := 0.50001%float;
     Date_toISOString := js "2024-06-01T12:00:00.000Z" |}.

Definition empty_storage : LocalStorage :=
  {| items := ∅; quota := None; enabled := true |}.

Definition milk : Task :=
  {| id := 1700000000000.5%float; text := js "Buy milk"; completed := false;
     createdAt := iso0; updatedAt := iso0 |}.

Definition dog : Task :=
  {| id := 1700000000123.25%float; text := js "Walk the dog"; completed := true;
     createdAt := iso0; updatedAt := js "2024-01-02T08:30:00.000Z" |}.

(** A task whose [id] is the number zero. *)
Definition zero_id : Task :=
  {| id := 0%float; text := js "a"; completed := false;
     createdAt := iso0; updatedAt := iso0 |}.

Definition app0 : App.TaskFlowApp :=
  {| App.tasks := [dog; milk];
     App.history := [];
     App.historyIndex := -1 |}.

(** Five tasks, the first and the third completed. *)
Definition five : App.TaskFlowApp :=
  {| App.tasks :=
       map (fun p : float * bool =>
              {| id := fst p; text := js "t"; completed := snd p;
                 createdAt := iso0; updatedAt := iso0 |})
         [(1%float, true); (2%float, false); (3%float, true);
          (4%float, false); (5%float, false)];
     App.history := [];
     App.historyIndex := -1 |}.

(** A storage that refuses every access. *)
Definition locked_storage : LocalStorage :=
  {| items := {[ "taskflow_tasks" := js "[]" ]}; quota := None; enabled := false |}.

(** An application after two additions, on the reference platform. *)
Definition app2 : App.TaskFlowApp :=
  {| App.tasks := [dog; milk];
     App.history := map (@snapshot Reference.platform) [[]; [milk]];
     App.historyIndex := 1 |}.

End Samples.

(* ===================================================================== *)
(** * Properties                                                          *)
(* ===================================================================== *)

Import Validation Storage Render App.

Arguments js : simpl never.
Arguments number_of_nat : simpl never.
Arguments localStorage_setItem : simpl never.
Arguments localStorage_getItem : simpl never.

(** ** Equations of the effect monad *)

Lemma Eff_bind_eq {A B : Type} (m : Eff A) (k : A -> Eff B) (ls : LocalStorage) :
  (m ≫= k) ls =
    match m ls with
    | (Return a, ls') => k a ls'
    | (Throw e, ls') => (Throw e, ls')
    end.
Proof. reflexivity. Qed.

Lemma Eff_ret_eq {A : Type} (a : A) (ls : LocalStorage) :
  (mret a : Eff A) ls = (Return a, ls).
Proof. reflexivity. Qed.

Lemma pure_exc_eq {A : Type} (x : Exc A) (ls : LocalStorage) :
  pure_exc x ls = (x, ls).
Proof. reflexivity. Qed.

Lemma try_catch_eq {A : Type} (body : Eff A) (handler : Error -> Eff A)
  (ls : LocalStorage) :
  try_catch body handler ls =
    match body ls with
    | (Return a, ls') => (Return a, ls')
    | (Throw e, ls') => handler e ls'
    end.
Proof. reflexivity. Qed.

Ltac eff_simpl :=
  repeat (rewrite ?Eff_bind_eq, ?Eff_ret_eq, ?pure_exc_eq, ?try_catch_eq;
          cbv beta iota).

(** ** Truthiness of strings *)

Lemma truthy_VStr_nonempty (s : jsstring) : s <> [] -> truthy (VStr s) = true.
Proof.
  intros Hs. unfold truthy, str_eqb.
  rewrite bool_decide_eq_false_2; [reflexivity | exact Hs].
Qed.

Lemma length_nonempty (s : jsstring) : s <> [] -> (0 < length s)%nat.
Proof. destruct s; [congruence | simpl; lia]. Qed.

Lemma or_else_VStr_nonempty (s : jsstring) (d : jsval) :
  s <> [] -> or_else (VStr s) d = VStr s.
Proof.
  intros Hs. unfold or_else. rewrite truthy_VStr_nonempty by exact Hs. reflexivity.
Qed.

Lemma or_else_text (s : jsstring) : or_else (VStr s) (VStr []) = VStr s.
Proof.
  unfold or_else, truthy, str_eqb. case_bool_decide; [subst|]; reflexivity.
Qed.

(* --------------------------------------------------------------------- *)
(** ** trim and the replacements of sanitizeInput                         *)
(* --------------------------------------------------------------------- *)

Lemma trimStart_starts_clean (s : jsstring) : starts_clean (trimStart s).
Proof.
  induction s as [|c s IH]; [exact I|].
  cbn [trimStart]. destruct (is_whitespace c) eqn:Hc; [exact IH | exact Hc].
Qed.

Lemma trimStart_clean (s : jsstring) : starts_clean s -> trimStart s = s.
Proof.
  destruct s as [|c s]; [reflexivity|]. cbn. intros ->. reflexivity.
Qed.

Lemma trimStart_snoc (s : jsstring) (c : N) :
  is_whitespace c = false -> trimStart (s ++ [c]) = trimStart s ++ [c].
Proof.
  intros Hc. induction s as [|d s IH]; cbn [trimStart app].
  - rewrite Hc. reflexivity.
  - destruct (is_whitespace d); [exact IH | reflexivity].
Qed.

Lemma trimEnd_cons (c : N) (s : jsstring) :
  is_whitespace c = false -> trimEnd (c :: s) = c :: trimEnd s.
Proof.
  intros Hc. unfold trimEnd. cbn [rev].
  rewrite (trimStart_snoc _ _ Hc), rev_app_distr. reflexivity.
Qed.

Lemma trimEnd_ends_clean (s : jsstring) : ends_clean (trimEnd s).
Proof.
  unfold ends_clean, trimEnd. rewrite rev_involutive. apply trimStart_starts_clean.
Qed.

Lemma trimEnd_clean (s : jsstring) : ends_clean s -> trimEnd s = s.
Proof.
  unfold ends_clean, trimEnd. intros Hs.
  rewrite (trimStart_clean _ Hs). apply rev_involutive.
Qed.

(** [trim] leaves a string with clean ends as it is. *)
Lemma trim_clean (s : jsstring) : starts_clean s -> ends_clean s -> trim s = s.
Proof.
  intros Hs He. unfold trim. rewrite (trimStart_clean _ Hs). apply trimEnd_clean, He.
Qed.

Lemma trim_starts_clean (s : jsstring) : starts_clean (trim s).
Proof.
  unfold trim. pose proof (trimStart_starts_clean s) as Hs.
  destruct (trimStart s) as [|c r]; [exact I|].
  cbn in Hs. rewrite (trimEnd_cons _ _ Hs). exact Hs.
Qed.

Lemma trim_ends_clean (s : jsstring) : ends_clean (trim s).
Proof. apply trimEnd_ends_clean. Qed.

Lemma replace_ws_runs_starts_clean (s : jsstring) :
  starts_clean s -> starts_clean (replace_ws_runs false s).
Proof.
  destruct s as [|c s]; [intros; exact I|].
  cbn. intros Hc. rewrite Hc. exact Hc.
Qed.

Lemma replace_ws_runs_snoc (b : bool) (s : jsstring) (c : N) :
  is_whitespace c = false ->
  replace_ws_runs b (s ++ [c]) = replace_ws_runs b s ++ [c].
Proof.
  intros Hc. revert b. induction s as [|d s IH]; intros b; cbn [replace_ws_runs app].
  - rewrite Hc. reflexivity.
  - destruct (is_whitespace d); [destruct b|]; rewrite IH; reflexivity.
Qed.

Lemma ends_clean_inv (s : jsstring) :
  ends_clean s -> s = [] \/ exists r c, s = r ++ [c] /\ is_whitespace c = false.
Proof.
  unfold ends_clean. intros Hs.
  destruct (rev s) as [|c r] eqn:Hr.
  - left. apply (f_equal (@rev N)) in Hr. rewrite rev_involutive in Hr. exact Hr.
  - right. exists (rev r), c. split; [|exact Hs].
    apply (f_equal (@rev N)) in Hr. rewrite rev_involutive in Hr. exact Hr.
Qed.

Lemma replace_ws_runs_ends_clean (s : jsstring) :
  ends_clean s -> ends_clean (replace_ws_runs false s).
Proof.
  intros Hs. destruct (ends_clean_inv _ Hs) as [->|(r & c & -> & Hc)]; [exact I|].
  rewrite (replace_ws_runs_snoc _ _ _ Hc).
  unfold ends_clean. rewrite rev_app_distr. exact Hc.
Qed.

Lemma break_is_whitespace (c : N) :
  ((c =? 13) || (c =? 10) || (c =? 9))%N = true -> is_whitespace c = true.
Proof.
  rewrite !orb_true_iff, !N.eqb_eq. intros [[->| ->]| ->]; reflexivity.
Qed.

(** After the runs of white space were replaced, no line break or tab is
    left for the second replacement. *)
Lemma replace_breaks_ws_runs (b : bool) (s : jsstring) :
  replace_breaks (replace_ws_runs b s) = replace_ws_runs b s.
Proof.
  revert b. induction s as [|c s IH]; intros b; [reflexivity|].
  cbn [replace_ws_runs]. destruct (is_whitespace c) eqn:Hc.
  - destruct b; [apply IH|].
    unfold replace_breaks in *. cbn [map]. rewrite IH. reflexivity.
  - unfold replace_breaks in *. cbn [map]. rewrite IH.
    destruct ((c =? 13) || (c =? 10) || (c =? 9))%N eqn:Hb; [|reflexivity].
    apply break_is_whitespace in Hb. congruence.
Qed.

Lemma Forall_trimStart (P : N -> Prop) (s : jsstring) :
  Forall P s -> Forall P (trimStart s).
Proof.
  induction 1 as [|c s Hc Hs IH]; [constructor|].
  cbn [trimStart]. destruct (is_whitespace c); [exact IH | constructor; assumption].
Qed.

Lemma Forall_trim (P : N -> Prop) (s : jsstring) : Forall P s -> Forall P (trim s).
Proof.
  intros Hs. unfold trim, trimEnd.
  apply Forall_rev, Forall_trimStart, Forall_rev, Forall_trimStart, Hs.
Qed.

Lemma Forall_replace_ws_runs (P : N -> Prop) (b : bool) (s : jsstring) :
  P 32%N -> Forall P s -> Forall P (replace_ws_runs b s).
Proof.
  intros Hsp Hs. revert b. induction Hs as [|c s Hc Hs IH]; intros b; [constructor|].
  cbn [replace_ws_runs]. destruct (is_whitespace c); [destruct b|];
    repeat constructor; auto.
Qed.

Lemma remove_angle_brackets_none (s : jsstring) :
  Forall (fun c => is_angle_bracket c = false) s -> remove_angle_brackets s = s.
Proof.
  induction 1 as [|c s Hc Hs IH]; [reflexivity|].
  unfold remove_angle_brackets in *. cbn [List.filter].
  rewrite Hc. cbn [negb]. rewrite IH. reflexivity.
Qed.

(** On an input without angle brackets whose trimmed and collapsed form
    fits the bound, [sanitizeInput] returns that form, and a further
    [trim] leaves it as it is. *)
Lemma sanitizeInput_plain (s : jsstring) :
  Forall (fun c => is_angle_bracket c = false) s ->
  (length (replace_ws_runs false (trim s)) <= maxLength)%nat ->
  sanitizeInput s = replace_ws_runs false (trim s)
  /\ trim (sanitizeInput s) = sanitizeInput s.
Proof.
  intros Hs Hlen.
  assert (Heq : sanitizeInput s = replace_ws_runs false (trim s)).
  { unfold sanitizeInput, substring0.
    rewrite replace_breaks_ws_runs, remove_angle_brackets_none.
    - apply take_ge. exact Hlen.
    - apply Forall_replace_ws_runs; [reflexivity | apply Forall_trim, Hs]. }
  split; [exact Heq|]. rewrite Heq.
  apply trim_clean.
  - apply replace_ws_runs_starts_clean, trim_starts_clean.
  - apply replace_ws_runs_ends_clean, trim_ends_clean.
Qed.

(* --------------------------------------------------------------------- *)
(** ** The validator                                                      *)
(* --------------------------------------------------------------------- *)

Section ValidatorFacts.
Context `{!Platform}.

(** The result on an input that is empty once trimmed. *)
Lemma validateTaskInput_required (input : jsstring) (existingTasks : list Task) :
  trim input = [] ->
  validateTaskInput input existingTasks =
    {| isValid := false; errors := [REQUIRED]; warnings := []; cleaned := [] |}.
Proof.
  intros Hv. unfold validateTaskInput. rewrite Hv. reflexivity.
Qed.

(** [cleaned] is the trimmed input, whatever the errors. *)
Lemma validateTaskInput_cleaned (input : jsstring) (existingTasks : list Task) :
  cleaned (validateTaskInput input existingTasks) = trim input.
Proof.
  unfold validateTaskInput.
  destruct (trim input) as [|c value] eqn:Hv; [reflexivity|].
  rewrite truthy_VStr_nonempty by discriminate.
  reflexivity.
Qed.

(** The errors collected for an input that is not empty once trimmed. *)
Lemma validateTaskInput_errors (input : jsstring) (existingTasks : list Task) :
  trim input <> [] ->
  errors (validateTaskInput input existingTasks) =
    (if (length (trim input) <? minLength)%nat then [TOO_SHORT] else []) ++
    (if (maxLength <? length (trim input))%nat then [TOO_LONG] else []) ++
    (if negb (allowedChars_test (trim input)) then [INVALID_CHARS] else []) ++
    (if (0 <? length existingTasks)%nat
        && existsb (fun task =>
                      str_eqb (trim (toLowerCase (text task)))
                        (toLowerCase (trim input))) existingTasks
     then [DUPLICATE] else []).
Proof.
  intros Hv. unfold validateTaskInput.
  rewrite (truthy_VStr_nonempty _ Hv).
  pose proof (length_nonempty _ Hv) as Hlen.
  destruct (length (trim input)) as [|n] eqn:Hn; [lia|].
  reflexivity.
Qed.

(** C6, as the code has it: the validator trims the input and does not
    collapse its inner white space.  The cleaned value is the trimmed
    input; an input that is empty once trimmed is rejected as REQUIRED;
    otherwise TOO_LONG is reported exactly when the trimmed input has
    more than 200 code units and INVALID_CHARS exactly when the trimmed
    input fails the allowed-character pattern. *)
Theorem validateTaskInput_checks_trimmed_value
  (input : jsstring) (existingTasks : list Task) :
  let value := trim input in
  let result := validateTaskInput input existingTasks in
  cleaned result = value
  /\ (value = [] -> errors result = [REQUIRED] /\ isValid result = false)
  /\ (value <> [] ->
      (In TOO_LONG (errors result) <-> (200 < length value)%nat)
      /\ (In INVALID_CHARS (errors result) <-> allowedChars_test value = false)
      /\ ~ In TOO_SHORT (errors result)
      /\ ~ In REQUIRED (errors result)).
Proof.
  intros value result. subst value result.
  split; [apply validateTaskInput_cleaned|].
  split.
  - intros Hv. rewrite (validateTaskInput_required _ _ Hv). split; reflexivity.
  - intros Hv. rewrite (validateTaskInput_errors _ _ Hv).
    pose proof (length_nonempty _ Hv) as Hlen.
    unfold minLength, maxLength.
    destruct (Nat.ltb_spec (length (trim input)) 1) as [Hs|Hs]; [lia|].
    destruct (Nat.ltb_spec 200 (length (trim input))) as [Hl|Hl];
      destruct (allowedChars_test (trim input));
      match goal with
      | |- context [if ?b then [DUPLICATE] else []] => destruct b
      end; simpl; repeat split; intros; intuition (try discriminate; try lia).
Qed.

(** C7, as the code has it: validating a sanitized value returns that
    value trimmed once more, so [cleaned] equals [sanitizeInput s]
    exactly when [sanitizeInput s] neither begins nor ends with white
    space; this is the case whenever [s] holds no angle bracket and its
    trimmed, collapsed form has at most 200 code units. *)
Theorem validate_sanitized_cleaned (s : jsstring) (existingTasks : list Task) :
  let result := validateTaskInput (sanitizeInput s) existingTasks in
  cleaned result = trim (sanitizeInput s)
  /\ (cleaned result = sanitizeInput s <-> trim (sanitizeInput s) = sanitizeInput s)
  /\ (Forall (fun c => is_angle_bracket c = false) s ->
      (length (replace_ws_runs false (trim s)) <= 200)%nat ->
      cleaned result = sanitizeInput s).
Proof.
  cbv zeta. rewrite validateTaskInput_cleaned.
  split; [reflexivity|]. split; [reflexivity|].
  intros Hs Hlen. apply (sanitizeInput_plain s Hs Hlen).
Qed.

End ValidatorFacts.

(** C6 fails as stated: on an [a], two hundred spaces and a [b], the
    value with its white space collapsed has three code units, yet the
    validator measures the 202 code units of the trimmed input and
    rejects it as TOO_LONG. *)
Lemma validateTaskInput_rejects_collapsible_input :
  let input := js "a" ++ repeat 32%N 200 ++ js "b" in
  let result := @validateTaskInput Reference.platform input [] in
  replace_ws_runs false (trim input) = js "a b"
  /\ (1 <= length (replace_ws_runs false (trim input)) <= 200)%nat
  /\ allowedChars_test (replace_ws_runs false (trim input)) = true
  /\ length (trim input) = 202%nat
  /\ errors result = [TOO_LONG]
  /\ isValid result = false.
Proof.
  cbv zeta. split; [vm_compute; reflexivity|].
  split; [vm_compute; lia|].
  repeat split; vm_compute; reflexivity.
Qed.

(** C7 fails as stated: [sanitizeInput] strips the angle bracket after
    it has trimmed, so the sanitized value of [a <] ends with a space; it
    is non-empty and within the bound, and the validator returns it
    without that space. *)
Lemma sanitized_value_is_retrimmed :
  let s := js "a <" in
  let result := @validateTaskInput Reference.platform (sanitizeInput s) [] in
  sanitizeInput s = js "a "
  /\ isValid result = true
  /\ cleaned result = js "a"
  /\ cleaned result <> sanitizeInput s.
Proof. vm_compute. repeat split; try reflexivity. discriminate. Qed.

(* --------------------------------------------------------------------- *)
(** ** The storage gateway                                                *)
(* --------------------------------------------------------------------- *)

Lemma META_KEY_neq : META_KEY <> STORAGE_KEY.
Proof. discriminate. Qed.

(** Every task record passes the filter of [saveTasks]. *)
Lemma valid_task_js_of_task (t : Task) : valid_task (js_of_task t) = Return true.
Proof. reflexivity. Qed.

Lemma Array_filter_js_of_tasks (T : list Task) :
  Array_filter valid_task (map js_of_task T) = Return (map js_of_task T).
Proof.
  induction T as [|t T IH]; [reflexivity|].
  cbn [map Array_filter]. rewrite valid_task_js_of_task, IH. reflexivity.
Qed.

(** The defaults of [loadTasks] leave a storable task as it is. *)
Lemma with_defaults_js_of_task (env : Env) (t : Task) :
  storable t -> with_defaults env (js_of_task t) = Return (js_of_task t).
Proof.
  intros (Hid & Hc & Hu). unfold with_defaults, js_of_task. cbn.
  rewrite or_else_text, !or_else_VStr_nonempty by assumption.
  unfold or_else. cbn [truthy]. rewrite Hid. destruct (completed t); reflexivity.
Qed.

Lemma mapM_with_defaults (env : Env) (T : list Task) :
  Forall storable T ->
  mapM (with_defaults env) (map js_of_task T) = Return (map js_of_task T).
Proof.
  induction 1 as [|t T Ht HT IH]; [reflexivity|].
  cbn [map mapM]. rewrite (with_defaults_js_of_task _ _ Ht). cbn.
  rewrite IH. reflexivity.
Qed.

(** The callback of [loadTasks] throws on [null] and [undefined], and
    the throw ends the whole [map]. *)
Lemma mapM_throws_on_null (f : jsval -> Exc jsval) (elems : list jsval) :
  (forall v, v = VNull \/ v = VUndefined -> exists e, f v = Throw e) ->
  (exists v, In v elems /\ (v = VNull \/ v = VUndefined)) ->
  exists e, mapM f elems = Throw e.
Proof.
  intros Hf (v & Hin & Hv).
  induction elems as [|x elems IH]; [destruct Hin|].
  cbn [mapM]. destruct (f x) as [y|e] eqn:Hx; [|cbn; eauto].
  destruct Hin as [->|Hin].
  - destruct (Hf v Hv) as [e He]. congruence.
  - destruct (IH Hin) as [e He]. cbn. rewrite He. cbn. eauto.
Qed.

Lemma setItem_success (key : string) (value : jsstring) (ls ls' : LocalStorage) :
  localStorage_setItem key value ls = (Return tt, ls') ->
  enabled ls' = true /\ items ls' = <[key := value]> (items ls).
Proof.
  unfold localStorage_setItem.
  destruct (enabled ls) eqn:He; cbn; [|discriminate].
  destruct (quota ls) as [q|] eqn:Hq.
  - match goal with |- context [if ?b then _ else _] => destruct b end;
      [discriminate|].
    intros [= <-]. cbn. auto.
  - intros [= <-]. cbn. auto.
Qed.

(** [setItem] either stores the item or throws and changes nothing. *)
Lemma setItem_outcome (key : string) (value : jsstring) (ls : LocalStorage) :
  (exists ls', localStorage_setItem key value ls = (Return tt, ls'))
  \/ (exists e, localStorage_setItem key value ls = (Throw e, ls)).
Proof.
  unfold localStorage_setItem.
  destruct (enabled ls); cbn; [|right; eauto].
  destruct (quota ls) as [q|]; eauto.
  match goal with |- context [if ?b then _ else _] => destruct b end; eauto.
Qed.

Section StorageFacts.
Context `{!Platform}.

(** What a successful [saveTasks] of a task list leaves in the storage. *)
Lemma saveTasks_success (T : list Task) (env : Env) (ls ls' : LocalStorage) :
  saveTasks (js_of_tasks T) env ls = (Return true, ls') ->
  enabled ls' = true
  /\ items ls' !! STORAGE_KEY = Some (JSON_stringify (js_of_tasks T)).
Proof.
  unfold saveTasks, js_of_tasks. cbn [Array_isArray negb elements].
  rewrite Array_filter_js_of_tasks. eff_simpl.
  destruct (setItem_outcome STORAGE_KEY (JSON_stringify (VArr (map js_of_task T))) ls)
    as [[ls1 H1]|[e H1]]; rewrite H1; eff_simpl; [|discriminate].
  match goal with
  | |- context [localStorage_setItem META_KEY ?v ls1] =>
      destruct (setItem_outcome META_KEY v ls1) as [[ls2 H2]|[e H2]]; rewrite H2;
      eff_simpl; [|discriminate]
  end.
  intros [= <-].
  apply setItem_success in H1 as (_ & Hi1).
  apply setItem_success in H2 as (He2 & Hi2).
  split; [exact He2|].
  rewrite Hi2, lookup_insert_ne by exact META_KEY_neq.
  rewrite Hi1. apply lookup_insert_eq.
Qed.

(** C3, as the code has it: a list of tasks whose ids are truthy numbers
    (not zero, not NaN) and whose timestamps are non-empty strings is
    read back as written, same fields and same order, once [saveTasks]
    has succeeded; the host's JSON codec is assumed to reject the empty
    text and to read back the text it prints for this list. *)
Theorem saveTasks_loadTasks_round_trip
  (T : list Task) (env env' : Env) (ls ls' : LocalStorage) :
  Forall storable T ->
  JSON_parse [] = None ->
  JSON_parse (JSON_stringify (js_of_tasks T)) = Some (js_of_tasks T) ->
  saveTasks (js_of_tasks T) env ls = (Return true, ls') ->
  loadTasks env' ls' = (Return (map js_of_task T), ls').
Proof.
  intros HT Hempty Hcodec Hsave.
  apply saveTasks_success in Hsave as (He & Hstored).
  unfold loadTasks. eff_simpl. unfold localStorage_getItem.
  rewrite He, Hstored.
  destruct (JSON_stringify (js_of_tasks T)) as [|c text] eqn:Htext.
  { rewrite Hempty in Hcodec. discriminate. }
  assert (Ht : truthy (VStr (c :: text)) = true) by reflexivity.
  rewrite Ht. cbn [negb]. eff_simpl. rewrite Hcodec.
  cbn [js_of_tasks Array_isArray negb elements].
  rewrite (mapM_with_defaults _ _ HT). reflexivity.
Qed.

(** C4: [loadTasks] never throws and never writes: whatever the storage
    holds under the tasks key, the call returns an array and leaves the
    storage as it was.  The array is empty when the storage is
    unavailable, when the key is absent or holds the empty text, when
    the text is not JSON, when it is JSON but not an array, and when the
    array holds a [null] (or [undefined]) element. *)
Theorem loadTasks_never_raises (env : Env) (ls : LocalStorage) :
  (exists result, loadTasks env ls = (Return result, ls))
  /\ (enabled ls = false -> loadTasks env ls = (Return [], ls))
  /\ (items ls !! STORAGE_KEY = None -> loadTasks env ls = (Return [], ls))
  /\ (items ls !! STORAGE_KEY = Some [] -> loadTasks env ls = (Return [], ls))
  /\ (forall stored, items ls !! STORAGE_KEY = Some stored ->
        JSON_parse stored = None -> loadTasks env ls = (Return [], ls))
  /\ (forall stored v, items ls !! STORAGE_KEY = Some stored ->
        JSON_parse stored = Some v -> Array_isArray v = false ->
        loadTasks env ls = (Return [], ls))
  /\ (forall stored elems, items ls !! STORAGE_KEY = Some stored ->
        JSON_parse stored = Some (VArr elems) ->
        (In VNull elems \/ In VUndefined elems) ->
        loadTasks env ls = (Return [], ls)).
Proof.
  unfold loadTasks. eff_simpl. unfold localStorage_getItem.
  destruct (enabled ls) eqn:He; cycle 1.
  { repeat split; eauto; intros; reflexivity. }
  destruct (items ls !! STORAGE_KEY) as [stored|] eqn:Hs; cycle 1.
  { eff_simpl. repeat split; eauto; intros; reflexivity. }
  destruct (truthy (VStr stored)) eqn:Ht; cycle 1.
  { cbn [negb]. eff_simpl. repeat split; eauto; intros; reflexivity. }
  cbn [negb]. eff_simpl.
  destruct (JSON_parse stored) as [v|] eqn:Hp; cycle 1.
  { repeat split; eauto; intros; reflexivity. }
  destruct (Array_isArray v) eqn:Ha; cycle 1.
  { cbn [negb]. eff_simpl. repeat split; eauto; intros; reflexivity. }
  cbn [negb]. eff_simpl.
  destruct v as [| | | | |elems|]; try discriminate. cbn [elements].
  destruct (mapM (with_defaults env) elems) as [result|e] eqn:Hm.
  - repeat split; eauto; try discriminate.
    + intros [= ->]. discriminate Ht.
    + intros s [= <-]. congruence.
    + intros s v [= <-]. rewrite Hp. intros [= <-]. discriminate.
    + intros s elems' [= <-]. rewrite Hp. intros [= <-] Hin.
      destruct (mapM_throws_on_null (with_defaults env) elems) as [e Hthrow].
      * intros v [-> | ->]; eexists; reflexivity.
      * destruct Hin; eauto.
      * congruence.
  - eff_simpl. repeat split; eauto; intros; reflexivity.
Qed.

(** C10: on a value that is not an array, [saveTasks] returns [false]
    and leaves the storage, both the tasks key and the metadata key, as
    it was. *)
Theorem saveTasks_rejects_non_array
  (tasks : jsval) (env : Env) (ls : LocalStorage) :
  Array_isArray tasks = false ->
  saveTasks tasks env ls = (Return false, ls).
Proof.
  intros Hna. unfold saveTasks. rewrite Hna. reflexivity.
Qed.

End StorageFacts.

(** C3 fails as stated: a task whose [id] is the number zero is written
    by [saveTasks], and [loadTasks] returns it with [Date.now()] as its
    id, because [task.id || Date.now()] takes a zero for a missing id. *)
Lemma loadTasks_replaces_zero_id :
  let T := [Samples.zero_id] in
  exists ls',
    @saveTasks Reference.platform (js_of_tasks T) Samples.env0 Samples.empty_storage
      = (Return true, ls')
    /\ fst (@loadTasks Reference.platform Samples.env0 ls') =
         Return [ js_of_task
                    {| id := 1700000000000%float; text := js "a";
                       completed := false; createdAt := Samples.iso0;
                       updatedAt := Samples.iso0 |} ]
    /\ fst (@loadTasks Reference.platform Samples.env0 ls')
         <> Return (map js_of_task T).
Proof.
  eexists. split; [vm_compute; reflexivity|].
  split; [vm_compute; reflexivity|].
  intros Heq.
  apply (f_equal (fun r =>
                    match r with
                    | Return [VObj ((_, VNum n) :: _)] => PrimFloat.is_zero n
                    | _ => false
                    end)) in Heq.
  vm_compute in Heq. discriminate.
Qed.

(** The round trip on two sample tasks, through the reference codec and
    an empty storage. *)
Lemma saveTasks_loadTasks_round_trip_witness :
  let T := [Samples.dog; Samples.milk] in
  let ls' :=
    snd (@saveTasks Reference.platform (js_of_tasks T) Samples.env0
           Samples.empty_storage) in
  Forall storable T
  /\ @loadTasks Reference.platform Samples.env1 ls' = (Return (map js_of_task T), ls').
Proof.
  cbv zeta.
  assert (HT : Forall storable [Samples.dog; Samples.milk]).
  { repeat constructor; discriminate. }
  split; [exact HT|].
  apply (@saveTasks_loadTasks_round_trip Reference.platform
           [Samples.dog; Samples.milk] Samples.env0 Samples.env1
           Samples.empty_storage).
  - exact HT.
  - reflexivity.
  - vm_compute. reflexivity.
  - vm_compute. reflexivity.
Defined.

(** [saveTasks] on a string: nothing is stored. *)
Lemma saveTasks_rejects_non_array_witness :
  Array_isArray (VStr (js "not an array")) = false
  /\ @saveTasks Reference.platform (VStr (js "not an array")) Samples.env0
       Samples.empty_storage
     = (Return false, Samples.empty_storage).
Proof.
  split; [reflexivity|].
  apply (@saveTasks_rejects_non_array Reference.platform). reflexivity.
Defined.

(* --------------------------------------------------------------------- *)
(** ** The view filter                                                    *)
(* --------------------------------------------------------------------- *)

Lemma filter_partition_perm {A : Type} (p : A -> bool) (l : list A) :
  Permutation (List.filter (fun x => negb (p x)) l ++ List.filter p l) l.
Proof.
  induction l as [|x l IH]; [reflexivity|].
  cbn [List.filter]. destruct (p x); cbn [negb app].
  - symmetry. apply Permutation_cons_app. symmetry. exact IH.
  - constructor. exact IH.
Qed.

Lemma filter_sublist {A : Type} (p : A -> bool) (l : list A) :
  sublist (List.filter p l) l.
Proof.
  induction l as [|x l IH]; [constructor|].
  cbn [List.filter]. destruct (p x); [apply sublist_skip | apply sublist_cons];
    exact IH.
Qed.

(** C8: the [active] and the [completed] projections of a task list have
    no task in common, together they hold exactly the tasks of the list
    (as many times each), each is a subsequence of the list, so keeps
    its order, and the [all] filter returns the list itself. *)
Theorem filterTasks_partition (T : list Task) :
  let active := filterTasks T "active" in
  let done := filterTasks T "completed" in
  (forall t, ~ (In t active /\ In t done))
  /\ (forall t, In t T <-> In t active \/ In t done)
  /\ Permutation (active ++ done) T
  /\ sublist active T
  /\ sublist done T
  /\ filterTasks T "all" = T.
Proof.
  cbv zeta. unfold filterTasks. cbn [String.eqb Ascii.eqb Bool.eqb].
  split; [|split; [|split; [|split; [|split]]]].
  - intros t [Ha Hd]. apply filter_In in Ha as [_ Ha], Hd as [_ Hd].
    rewrite Hd in Ha. discriminate.
  - intros t. split.
    + intros Hin. destruct (completed t) eqn:Hc; [right|left];
        apply filter_In; rewrite Hc; auto.
    + intros [Hin|Hin]; apply filter_In in Hin as [Hin _]; exact Hin.
  - apply (filter_partition_perm completed).
  - apply filter_sublist.
  - apply (filter_sublist completed).
  - reflexivity.
Qed.

(* --------------------------------------------------------------------- *)
(** ** The task store                                                     *)
(* --------------------------------------------------------------------- *)

Section StoreFacts.
Context `{!Platform}.

(** [saveData] returns normally, whatever [saveTasks] reports. *)
Lemma saveData_outcome (env : Env) (this : TaskFlowApp) (ls : LocalStorage) :
  exists ls', saveData env this ls = (Return tt, ls').
Proof.
  unfold saveData. rewrite Eff_bind_eq.
  unfold saveTasks. rewrite try_catch_eq.
  match goal with
  | |- context [match ?b ls with _ => _ end] => destruct (b ls) as [[r|e] ls1]
  end; eexists; reflexivity.
Qed.

(** [toggleTask] on an id that no task has: [saveState] has run before
    the search, and nothing else happens. *)
Lemma toggleTask_absent (taskId : float) (env : Env) (this : TaskFlowApp)
  (ls : LocalStorage) :
  find (has_id taskId) (tasks this) = None ->
  toggleTask taskId env this ls = (Return (saveState this), ls).
Proof.
  intros Hfind. unfold toggleTask. cbn [saveState tasks]. rewrite Hfind. reflexivity.
Qed.

(** C9: when the trimmed answer of the prompt is the current text of the
    task that [editTask] finds, the call changes nothing: the tasks, the
    history and its index, and the storage are as before. *)
Theorem editTask_same_text_is_noop
  (taskId : float) (newText : jsstring) (env : Env)
  (this : TaskFlowApp) (ls : LocalStorage) (task : Task) :
  find (has_id taskId) (tasks this) = Some task ->
  trim newText = text task ->
  editTask taskId (Some newText) env this ls = (Return this, ls).
Proof.
  intros Hfind Htext. unfold editTask. rewrite Hfind, Htext.
  unfold str_eqb. rewrite bool_decide_eq_true_2 by reflexivity.
  reflexivity.
Qed.

(** C2, the code at a failing input: [toggleTask] on the empty store of
    a new application, for any id.  The tasks and the storage are as
    before, but the history has gained a snapshot and its index moved
    from -1 to 0. *)
Theorem toggleTask_absent_id_pushes_history
  (taskId : float) (env : Env) (ls : LocalStorage) :
  toggleTask taskId env constructor ls =
    (Return {| tasks := []; history := [JSON_stringify (VArr [])];
               historyIndex := 0 |},
     ls).
Proof.
  rewrite toggleTask_absent by reflexivity. reflexivity.
Qed.

(** C1, the code at a failing input: one [addTask] on a new application
    and then one [undo].  The [undo] changes nothing, because
    [saveState] left [historyIndex] at 0 and [undo] acts only above 0:
    the store still holds the added task. *)
Theorem undo_after_first_mutation_is_noop
  (task : Task) (env env' : Env) (ls : LocalStorage) :
  exists this1 ls1,
    addTask task env constructor ls = (Return this1, ls1)
    /\ tasks this1 = [task]
    /\ tasks this1 <> tasks constructor
    /\ undo env' this1 ls1 = (Return this1, ls1).
Proof.
  unfold addTask. rewrite Eff_bind_eq.
  match goal with
  | |- context [saveData env ?t ls] =>
      destruct (saveData_outcome env t ls) as [ls1 Hs]; rewrite Hs
  end.
  eexists _, ls1. split; [reflexivity|].
  repeat split. discriminate.
Qed.

End StoreFacts.

(** C5, the code at a failing input: two submissions within one
    millisecond for which [Math.random()] returns 0.5 and 0.50001.  Both
    are accepted, and the two tasks get the same id: near 1.7e12 two
    neighbouring floats are 2^-12 apart, so both sums round to
    1700000000000.5. *)
Theorem created_ids_collide :
  PrimFloat.eqb (Math_random Samples.env0) (Math_random Samples.env1) = false
  /\ exists this1 ls1 this2 ls2 t1 t2,
       @handleTaskSubmit Reference.platform (js "Buy milk") Samples.env0
         constructor Samples.empty_storage = (Return this1, ls1)
       /\ @handleTaskSubmit Reference.platform (js "Walk dog") Samples.env1
            this1 ls1 = (Return this2, ls2)
       /\ tasks this2 = [t2; t1]
       /\ text t1 = js "Buy milk" /\ text t2 = js "Walk dog"
       /\ id t1 = id t2
       /\ has_id (id t1) t2 = true.
Proof.
  split; [vm_compute; reflexivity|].
  do 6 eexists.
  split; [vm_compute; reflexivity|].
  split; [vm_compute; reflexivity|].
  split; [vm_compute; reflexivity|].
  repeat split; vm_compute; reflexivity.
Qed.

(** [editTask] on a sample store, with the text of the found task
    between spaces as the answer. *)
Lemma editTask_same_text_is_noop_witness :
  find (has_id 1700000000000.5%float) (tasks Samples.app0) = Some Samples.milk
  /\ trim (js "  Buy milk ") = text Samples.milk
  /\ @editTask Reference.platform 1700000000000.5%float (Some (js "  Buy milk "))
       Samples.env0 Samples.app0 Samples.empty_storage
     = (Return Samples.app0, Samples.empty_storage).
Proof.
  split; [reflexivity|]. split; [reflexivity|].
  apply (@editTask_same_text_is_noop Reference.platform _ _ _ _ _ Samples.milk);
    reflexivity.
Defined.

(* --------------------------------------------------------------------- *)
(** ** Ids under the operations of the store                              *)
(* --------------------------------------------------------------------- *)

Lemma distinct_numbers_sublist (l1 l2 : list float) :
  sublist l1 l2 -> distinct_numbers l2 -> distinct_numbers l1.
Proof.
  induction 1 as [|x l1 l2 Hsub IH|x l1 l2 Hsub IH]; cbn [distinct_numbers].
  - intros _. exact I.
  - intros [Hx Hd]. split; [|exact (IH Hd)].
    rewrite Forall_forall in *. intros y Hy. apply Hx.
    apply (sublist_subseteq _ _ Hsub), Hy.
  - intros [_ Hd]. exact (IH Hd).
Qed.

Lemma map_id_update_found (p : Task -> bool) (f : Task -> Task) (ts : list Task) :
  (forall t, id (f t) = id t) -> map id (update_found p f ts) = map id ts.
Proof.
  intros Hf. induction ts as [|t ts IH]; [reflexivity|].
  cbn [update_found]. destruct (p t); cbn [map]; [rewrite Hf | rewrite IH];
    reflexivity.
Qed.

Lemma splice_found_sublist (p : Task -> bool) (ts : list Task) :
  sublist (splice_found p ts) ts.
Proof.
  induction ts as [|t ts IH]; [constructor|].
  cbn [splice_found]. destruct (p t); [apply sublist_cons; reflexivity|].
  apply sublist_skip, IH.
Qed.

Lemma sublist_map {A B : Type} (f : A -> B) (l1 l2 : list A) :
  sublist l1 l2 -> sublist (map f l1) (map f l2).
Proof. induction 1; cbn [map]; constructor; assumption. Qed.

Section IdFacts.
Context `{!Platform}.

(** The tail of every mutating method: [this.saveData()] and return. *)
Lemma saveData_then_return (env : Env) (this : TaskFlowApp) (ls : LocalStorage) :
  exists ls', (saveData env this ≫= fun _ => mret this) ls = (Return this, ls').
Proof.
  rewrite Eff_bind_eq. destruct (saveData_outcome env this ls) as [ls' Hs].
  rewrite Hs. eexists. reflexivity.
Qed.

Ltac saved_step env ls :=
  match goal with
  | |- context [(saveData env ?t ≫= _) ls] =>
      let ls1 := fresh "ls1" in
      let Hs := fresh "Hs" in
      destruct (saveData_then_return env t ls) as [ls1 Hs]; rewrite Hs
  end.

Lemma addTask_tasks task env this ls this' ls' :
  addTask task env this ls = (Return this', ls') ->
  tasks this' = task :: tasks this.
Proof.
  unfold addTask. saved_step env ls. intros [= <- _]. reflexivity.
Qed.

Lemma toggleTask_ids taskId env this ls this' ls' :
  toggleTask taskId env this ls = (Return this', ls') ->
  map id (tasks this') = map id (tasks this).
Proof.
  unfold toggleTask. cbn [saveState tasks].
  destruct (find (has_id taskId) (tasks this)).
  - saved_step env ls. intros [= <- _]. cbn [set_tasks tasks].
    apply map_id_update_found. reflexivity.
  - intros [= <- _]. reflexivity.
Qed.

Lemma editTask_ids taskId answer env this ls this' ls' :
  editTask taskId answer env this ls = (Return this', ls') ->
  map id (tasks this') = map id (tasks this).
Proof.
  unfold editTask.
  destruct (find (has_id taskId) (tasks this)) as [task|];
    [|intros [= <- _]; reflexivity].
  destruct answer as [newText|]; [|intros [= <- _]; reflexivity].
  destruct (negb (str_eqb (trim newText) (text task)));
    [|intros [= <- _]; reflexivity].
  match goal with |- context [isValid ?v] => destruct (isValid v) end;
    [|intros [= <- _]; reflexivity].
  saved_step env ls. intros [= <- _]. cbn [set_tasks tasks saveState].
  apply map_id_update_found. reflexivity.
Qed.

Lemma deleteTask_ids taskId env this ls this' ls' :
  deleteTask taskId env this ls = (Return this', ls') ->
  sublist (map id (tasks this')) (map id (tasks this)).
Proof.
  unfold deleteTask. cbn [saveState tasks].
  destruct (find (has_id taskId) (tasks this)).
  - saved_step env ls. intros [= <- _]. cbn [set_tasks tasks].
    apply sublist_map, splice_found_sublist.
  - intros [= <- _]. reflexivity.
Qed.

Lemma clearCompletedTasks_ids confirmed env this ls this' ls' :
  clearCompletedTasks confirmed env this ls = (Return this', ls') ->
  sublist (map id (tasks this')) (map id (tasks this)).
Proof.
  unfold clearCompletedTasks.
  destruct (length (List.filter completed (tasks this)) =? 0)%nat;
    [intros [= <- _]; reflexivity|].
  destruct confirmed; [|intros [= <- _]; reflexivity].
  saved_step env ls. intros [= <- _]. cbn [set_tasks tasks saveState].
  apply sublist_map, filter_sublist.
Qed.

Lemma toggleAllTasks_ids env this ls this' ls' :
  toggleAllTasks env this ls = (Return this', ls') ->
  map id (tasks this') = map id (tasks this).
Proof.
  unfold toggleAllTasks. saved_step env ls. intros [= <- _].
  cbn [set_tasks tasks saveState]. rewrite map_map. reflexivity.
Qed.

(** A store without two tasks of the same id stays so under
    [toggleTask], [deleteTask], [editTask], [clearCompletedTasks] and
    [toggleAllTasks], and under [addTask] when the id of the new task is
    not the id of a task in the store. *)
Lemma distinct_ids_kept
  (this this' : TaskFlowApp) (env : Env) (ls ls' : LocalStorage) :
  distinct_ids (tasks this) ->
  (exists taskId, toggleTask taskId env this ls = (Return this', ls'))
  \/ (exists taskId, deleteTask taskId env this ls = (Return this', ls'))
  \/ (exists taskId answer, editTask taskId answer env this ls = (Return this', ls'))
  \/ (exists confirmed,
        clearCompletedTasks confirmed env this ls = (Return this', ls'))
  \/ toggleAllTasks env this ls = (Return this', ls')
  \/ (exists task, addTask task env this ls = (Return this', ls')
                   /\ Forall (fun t => has_id (id task) t = false) (tasks this)) ->
  distinct_ids (tasks this').
Proof.
  unfold distinct_ids. intros Hd Hop.
  destruct Hop
    as [[i Hop]|[[i Hop]|[(i & a & Hop)|[[c Hop]|[Hop|(task & Hop & Hfresh)]]]]].
  - rewrite (toggleTask_ids _ _ _ _ _ _ Hop). exact Hd.
  - exact (distinct_numbers_sublist _ _ (deleteTask_ids _ _ _ _ _ _ Hop) Hd).
  - rewrite (editTask_ids _ _ _ _ _ _ _ Hop). exact Hd.
  - exact (distinct_numbers_sublist _ _
             (clearCompletedTasks_ids _ _ _ _ _ _ Hop) Hd).
  - rewrite (toggleAllTasks_ids _ _ _ _ _ Hop). exact Hd.
  - rewrite (addTask_tasks _ _ _ _ _ _ Hop). cbn [map distinct_numbers].
    split; [|exact Hd]. rewrite Forall_map. exact Hfresh.
Qed.

(** After two additions on a new application a single [undo]
    restores the empty store: it steps over the state between the two
    additions.  The host's codec is assumed to read back the text it
    prints for the empty array. *)
Theorem undo_steps_back_twice
  (a b : Task) (env1 env2 env3 : Env) (ls : LocalStorage) :
  JSON_parse (JSON_stringify (VArr [])) = Some (VArr []) ->
  exists this1 ls1 this2 ls2 this3 ls3,
    addTask a env1 constructor ls = (Return this1, ls1)
    /\ addTask b env2 this1 ls1 = (Return this2, ls2)
    /\ tasks this2 = [b; a]
    /\ undo env3 this2 ls2 = (Return this3, ls3)
    /\ tasks this3 = [].
Proof.
  intros Hcodec.
  set (this1 := set_tasks [a] (saveState constructor)).
  set (this2 := set_tasks [b; a] (saveState this1)).
  set (this3 := {| tasks := []; history := history this2; historyIndex := 0 |}).
  destruct (saveData_then_return env1 this1 ls) as [ls1 H1].
  destruct (saveData_then_return env2 this2 ls1) as [ls2 H2].
  destruct (saveData_then_return env3 this3 ls2) as [ls3 H3].
  exists this1, ls1, this2, ls2, this3, ls3.
  split; [exact H1|]. split; [exact H2|]. split; [reflexivity|].
  split; [|reflexivity].
  unfold undo.
  change (historyIndex this2) with 1%Z.
  change (history this2 !! Z.to_nat (1 - 1))
    with (Some (JSON_stringify (VArr []))).
  cbn [Z.ltb Z.compare]. rewrite Hcodec. eff_simpl.
  cbn [tasks_of_js mapM]. eff_simpl.
  exact H3.
Qed.

(** X1: an operation on an id that no task has changes no task and
    writes nothing, and throws nothing.  [editTask] leaves the
    application as it was; [toggleTask] and [deleteTask], which call
    [saveState] before they look for the task, leave the application
    that [saveState] leaves: the same tasks, one more snapshot. *)
Theorem operations_on_absent_id
  (taskId : float) (answer : option jsstring) (env : Env) (this : TaskFlowApp)
  (ls : LocalStorage) :
  find (has_id taskId) (tasks this) = None ->
  toggleTask taskId env this ls = (Return (saveState this), ls)
  /\ deleteTask taskId env this ls = (Return (saveState this), ls)
  /\ editTask taskId answer env this ls = (Return this, ls)
  /\ tasks (saveState this) = tasks this.
Proof.
  intros Hfind. split; [apply toggleTask_absent, Hfind|].
  split; [|split; [|reflexivity]].
  - unfold deleteTask. cbn [saveState tasks]. rewrite Hfind. reflexivity.
  - unfold editTask. rewrite Hfind. reflexivity.
Qed.

End IdFacts.

(** Two additions and one [undo] through the reference codec. *)
Lemma undo_steps_back_twice_witness :
  Reference.parse (Reference.print_value (VArr [])) = Some (VArr [])
  /\ exists this1 ls1 this2 ls2 this3 ls3,
       @addTask Reference.platform Samples.milk Samples.env0 constructor
         Samples.empty_storage = (Return this1, ls1)
       /\ @addTask Reference.platform Samples.dog Samples.env1 this1 ls1
            = (Return this2, ls2)
       /\ tasks this2 = [Samples.dog; Samples.milk]
       /\ @undo Reference.platform Samples.env0 this2 ls2 = (Return this3, ls3)
       /\ tasks this3 = [].
Proof.
  split; [reflexivity|].
  apply (@undo_steps_back_twice Reference.platform). reflexivity.
Defined.

(** The three operations with the integer part of an id, as [parseInt]
    returns it, on a sample store. *)
Lemma operations_on_absent_id_witness :
  let taskId := 1700000000000%float in
  let saved := @saveState Reference.platform Samples.app0 in
  find (has_id taskId) (tasks Samples.app0) = None
  /\ @toggleTask Reference.platform taskId Samples.env0 Samples.app0
       Samples.empty_storage = (Return saved, Samples.empty_storage)
  /\ @deleteTask Reference.platform taskId Samples.env0 Samples.app0
       Samples.empty_storage = (Return saved, Samples.empty_storage)
  /\ @editTask Reference.platform taskId (Some (js "Buy oat milk")) Samples.env0
       Samples.app0 Samples.empty_storage
     = (Return Samples.app0, Samples.empty_storage)
  /\ tasks saved = tasks Samples.app0.
Proof.
  cbv zeta. split; [reflexivity|].
  apply (@operations_on_absent_id Reference.platform). reflexivity.
Defined.

(* --------------------------------------------------------------------- *)
(** ** saveState and a toggle that finds its task                         *)
(* --------------------------------------------------------------------- *)

Lemma find_update_found (p : Task -> bool) (f : Task -> Task) (ts : list Task)
  (t : Task) :
  (forall u, p (f u) = p u) ->
  find p ts = Some t -> find p (update_found p f ts) = Some (f t).
Proof.
  intros Hp. induction ts as [|u ts IH]; [discriminate|].
  cbn [find update_found]. destruct (p u) eqn:Hu.
  - intros [= <-]. cbn [find]. rewrite Hp, Hu. reflexivity.
  - intros Hfind. cbn [find]. rewrite Hu. exact (IH Hfind).
Qed.

Lemma length_update_found (p : Task -> bool) (f : Task -> Task) (ts : list Task) :
  length (update_found p f ts) = length ts.
Proof.
  induction ts as [|u ts IH]; [reflexivity|].
  cbn [update_found]. destruct (p u); cbn [length];
    [reflexivity | rewrite IH; reflexivity].
Qed.

Section HistoryFacts.
Context `{!Platform}.

(** X2: [saveState] leaves the tasks as they are, keeps at most 50
    snapshots when there were at most 50, ends the history with the
    snapshot of the current tasks and points [historyIndex] at it. *)
Theorem saveState_bounded (this : TaskFlowApp) :
  (length (history this) <= 50)%nat ->
  tasks (saveState this) = tasks this
  /\ (length (history (saveState this)) <= 50)%nat
  /\ last (history (saveState this))
       = Some (JSON_stringify (js_of_tasks (tasks this)))
  /\ historyIndex (saveState this)
       = (Z.of_nat (length (history (saveState this))) - 1)%Z.
Proof.
  intros Hlen. unfold saveState. cbn [tasks history historyIndex].
  split; [reflexivity|].
  set (pushed := history this ++ [JSON_stringify (js_of_tasks (tasks this))]).
  assert (Hp : length pushed = S (length (history this))).
  { unfold pushed. rewrite length_app. cbn. lia. }
  assert (Hl : last pushed = Some (JSON_stringify (js_of_tasks (tasks this)))).
  { unfold pushed. apply last_snoc. }
  destruct (Nat.ltb_spec 50 (length pushed)) as [Hgt|Hle].
  - split; [|split; [|reflexivity]].
    + destruct pushed; cbn in *; lia.
    + destruct pushed as [|x [|y rest]]; cbn in Hp, Hgt; try lia.
      exact Hl.
  - split; [exact Hle|]. split; [exact Hl | reflexivity].
Qed.

(** X3: [toggleTask] on the id of a task of the store returns normally;
    the task it finds afterwards under that id is the found task with
    [completed] flipped and [updatedAt] set to the current time; the
    number of tasks is the same, the history is the one [saveState]
    leaves, and the storage is the one [saveData] leaves for the new
    tasks. *)
Theorem toggleTask_flips_found
  (taskId : float) (env : Env) (this : TaskFlowApp) (ls : LocalStorage)
  (task : Task) :
  find (has_id taskId) (tasks this) = Some task ->
  exists this' ls',
    toggleTask taskId env this ls = (Return this', ls')
    /\ find (has_id taskId) (tasks this') =
         Some {| id := id task; text := text task;
                 completed := negb (completed task);
                 createdAt := createdAt task;
                 updatedAt := Date_toISOString env |}
    /\ length (tasks this') = length (tasks this)
    /\ history this' = history (saveState this)
    /\ saveData env this' ls = (Return tt, ls').
Proof.
  intros Hfind. unfold toggleTask. cbn [saveState tasks]. rewrite Hfind.
  match goal with
  | |- context [(saveData env ?t ≫= _) ls] =>
      destruct (saveData_outcome env t ls) as [ls' Hs]; exists t, ls'
  end.
  rewrite Eff_bind_eq, Hs. split; [reflexivity|].
  cbn [set_tasks tasks history].
  split.
  { match goal with
    | |- find _ (update_found _ ?f _) = _ =>
        exact (find_update_found (has_id taskId) f _ _ (fun u => eq_refl) Hfind)
    end. }
  split; [apply length_update_found|]. split; reflexivity.
Qed.

End HistoryFacts.

(** [saveState] on a sample store with an empty history. *)
Lemma saveState_bounded_witness :
  (length (history Samples.app0) <= 50)%nat
  /\ tasks (@saveState Reference.platform Samples.app0) = tasks Samples.app0
  /\ (length (history (@saveState Reference.platform Samples.app0)) <= 50)%nat
  /\ last (history (@saveState Reference.platform Samples.app0))
       = Some (Reference.print_value (js_of_tasks (tasks Samples.app0)))
  /\ historyIndex (@saveState Reference.platform Samples.app0)
       = (Z.of_nat (length (history (@saveState Reference.platform Samples.app0)))
          - 1)%Z.
Proof.
  assert (Hlen : (length (history Samples.app0) <= 50)%nat) by (cbn; lia).
  split; [exact Hlen|].
  apply (@saveState_bounded Reference.platform Samples.app0 Hlen).
Defined.

(** [toggleTask] with the id of a task of a sample store. *)
Lemma toggleTask_flips_found_witness :
  find (has_id 1700000000000.5%float) (tasks Samples.app0) = Some Samples.milk
  /\ exists this' ls',
       @toggleTask Reference.platform 1700000000000.5%float Samples.env0
         Samples.app0 Samples.empty_storage = (Return this', ls')
       /\ find (has_id 1700000000000.5%float) (tasks this') =
            Some {| id := id Samples.milk; text := text Samples.milk;
                    completed := negb (completed Samples.milk);
                    createdAt := createdAt Samples.milk;
                    updatedAt := Date_toISOString Samples.env0 |}
       /\ length (tasks this') = length (tasks Samples.app0)
       /\ history this' = history (@saveState Reference.platform Samples.app0)
       /\ @saveData Reference.platform Samples.env0 this' Samples.empty_storage
            = (Return tt, ls').
Proof.
  split; [reflexivity|].
  apply (@toggleTask_flips_found Reference.platform). reflexivity.
Defined.

(* --------------------------------------------------------------------- *)
(** ** The scenarios of the specification                                 *)
(* --------------------------------------------------------------------- *)

(** On the reference platform, submitting [Buy milk] to a new
    application stores one task with that text, not completed; the empty
    input is rejected as REQUIRED and 201 letters as TOO_LONG, the store
    unchanged; [buy milk] after [Buy milk] is rejected as DUPLICATE; and
    clearing the completed tasks of five tasks of which two are
    completed leaves three. *)
Theorem specification_scenarios :
  let submit s this :=
    returned (@handleTaskSubmit Reference.platform (js s) Samples.env0 this)
      Samples.empty_storage in
  (exists this,
      submit "Buy milk" constructor = Some this
      /\ map (fun t => (text t, completed t)) (tasks this)
           = [(js "Buy milk", false)])
  /\ errors (@validateTaskInput Reference.platform (js "") []) = [REQUIRED]
  /\ submit "" constructor = Some constructor
  /\ errors (@validateTaskInput Reference.platform (repeat 97%N 201) [])
       = [TOO_LONG]
  /\ (exists this,
        submit "Buy milk" constructor = Some this
        /\ errors (@validateTaskInput Reference.platform (js "buy milk")
                     (tasks this)) = [DUPLICATE]
        /\ submit "buy milk" this = Some this)
  /\ (exists this,
        returned (@clearCompletedTasks Reference.platform true Samples.env0
                    Samples.five) Samples.empty_storage = Some this
        /\ length (tasks this) = 3%nat
        /\ length (List.filter completed (tasks Samples.five)) = 2%nat).
Proof.
  cbv zeta.
  split; [eexists; split; vm_compute; reflexivity|].
  split; [vm_compute; reflexivity|].
  split; [vm_compute; reflexivity|].
  split; [vm_compute; reflexivity|].
  split; [eexists; split; [vm_compute; reflexivity|split; vm_compute; reflexivity]|].
  eexists; split; [vm_compute; reflexivity|split; vm_compute; reflexivity].
Qed.

(* --------------------------------------------------------------------- *)
(** ** The history as a trail of states, and undo                         *)
(* --------------------------------------------------------------------- *)

Lemma task_of_js_of_task (t : Task) : task_of_js (js_of_task t) = Some t.
Proof. destruct t. reflexivity. Qed.

Lemma tasks_of_js_of_tasks (ts : list Task) : tasks_of_js (js_of_tasks ts) = Some ts.
Proof.
  unfold tasks_of_js, js_of_tasks.
  induction ts as [|t ts IH]; [reflexivity|].
  cbn [map mapM]. rewrite task_of_js_of_task. cbn. rewrite IH. reflexivity.
Qed.

Section TrailFacts.
Context `{!Platform}.

Ltac saved_step env ls :=
  match goal with
  | |- context [(saveData env ?t ≫= _) ls] =>
      let ls1 := fresh "ls1" in
      let Hs := fresh "Hs" in
      destruct (saveData_then_return env t ls) as [ls1 Hs]; rewrite Hs
  end.

(** The cases of an operation: each goal is left with either a plain
    return or [saveData] followed by a return. *)
Ltac mutation_cases m this :=
  destruct m as [task|taskId|taskId|taskId answer|confirmed|];
  cbn [apply_mutation];
  [ unfold addTask
  | unfold toggleTask; destruct (find (has_id taskId) (tasks (saveState this)))
  | unfold deleteTask; destruct (find (has_id taskId) (tasks (saveState this)))
  | unfold editTask;
    destruct (find (has_id taskId) (tasks this)) as [task|];
    [ destruct answer as [newText|];
      [ destruct (negb (str_eqb (trim newText) (text task)));
        [ match goal with |- context [isValid ?v] => destruct (isValid v) end | ]
      | ]
    | ]
  | unfold clearCompletedTasks;
    destruct (length (List.filter completed (tasks this)) =? 0)%nat;
    [ | destruct confirmed ]
  | unfold toggleAllTasks ].

Lemma saveState_trail (states : list (list Task)) (this : TaskFlowApp) :
  trail states this -> (length states < 50)%nat ->
  trail (states ++ [tasks this]) (saveState this).
Proof.
  intros [Hh Hi] Hlen. unfold trail, saveState. cbn [history historyIndex].
  rewrite Hh.
  assert (Hp : length (map snapshot states ++ [JSON_stringify (js_of_tasks (tasks this))])
               = S (length states)).
  { rewrite length_app, length_map. cbn. lia. }
  rewrite Hp.
  destruct (Nat.ltb_spec 50 (S (length states))) as [Hgt|Hle]; [lia|].
  rewrite map_app, Hp, length_app. cbn [map length].
  split; [reflexivity|]. f_equal. lia.
Qed.

(** One operation on a trail of fewer than 50 states: it either changes
    nothing at all, or appends the tasks it found to the trail. *)
Lemma mutation_extends_trail
  (m : Mutation) (env : Env) (states : list (list Task))
  (this this' : TaskFlowApp) (ls ls' : LocalStorage) :
  trail states this ->
  (length states < 50)%nat ->
  apply_mutation m env this ls = (Return this', ls') ->
  (this' = this /\ ls' = ls) \/ trail (states ++ [tasks this]) this'.
Proof.
  intros Ht Hlen.
  pose proof (saveState_trail _ _ Ht Hlen) as Hs.
  mutation_cases m this;
    try (intros [= <- <-]; left; split; reflexivity);
    try (intros [= <- _]; right; exact Hs);
    saved_step env ls; intros [= <- _]; right; exact Hs.
Qed.

(** Every operation returns. *)
Lemma apply_mutation_returns (m : Mutation) (env : Env) (this : TaskFlowApp)
  (ls : LocalStorage) :
  exists this' ls', apply_mutation m env this ls = (Return this', ls').
Proof.
  mutation_cases m this; try (eexists _, _; reflexivity);
    saved_step env ls; eexists _, _; reflexivity.
Qed.

(** X4: each operation returns, and a store without two tasks of the
    same id stays so under it; for [addTask], when the id of the new
    task is not the id of a task in the store. *)
Theorem operations_preserve_distinct_ids
  (m : Mutation) (env : Env) (this : TaskFlowApp) (ls : LocalStorage) :
  distinct_ids (tasks this) ->
  fresh_for m (tasks this) ->
  exists this' ls',
    apply_mutation m env this ls = (Return this', ls')
    /\ distinct_ids (tasks this').
Proof.
  intros Hd Hfresh.
  destruct (apply_mutation_returns m env this ls) as (this' & ls' & Hm).
  exists this', ls'. split; [exact Hm|].
  apply (distinct_ids_kept this this' env ls ls' Hd).
  destruct m as [task|taskId|taskId|taskId answer|confirmed|];
    cbn [apply_mutation fresh_for] in *.
  - do 5 right. exists task. split; assumption.
  - left. exists taskId. exact Hm.
  - right. left. exists taskId. exact Hm.
  - do 2 right. left. exists taskId, answer. exact Hm.
  - do 3 right. left. exists confirmed. exact Hm.
  - do 4 right. left. exact Hm.
Qed.

Lemma apply_all_returns (ms : list (Mutation * Env)) :
  forall (this : TaskFlowApp) (ls : LocalStorage),
    exists this' ls', apply_all ms this ls = (Return this', ls').
Proof.
  induction ms as [|[m env] ms IH]; intros this ls; cbn [apply_all].
  - eexists _, _. reflexivity.
  - rewrite Eff_bind_eq.
    destruct (apply_mutation_returns m env this ls) as (this1 & ls1 & ->).
    apply IH.
Qed.

(** The history under a sequence of operations that returns. *)
Lemma apply_all_extends_trail (ms : list (Mutation * Env)) :
  forall (states : list (list Task)) (this this' : TaskFlowApp)
         (ls ls' : LocalStorage),
    trail states this ->
    (length states + length ms <= 50)%nat ->
    apply_all ms this ls = (Return this', ls') ->
    exists later,
      trail (states ++ later) this'
      /\ (length later <= length ms)%nat
      /\ head (later ++ [tasks this']) = Some (tasks this).
Proof.
  induction ms as [|[m env] ms IH]; intros states this this' ls ls' Ht Hlen.
  - cbn [apply_all]. intros [= <- _]. exists []. rewrite app_nil_r.
    split; [exact Ht|]. split; [cbn; lia | reflexivity].
  - cbn [apply_all length] in *. rewrite Eff_bind_eq.
    destruct (apply_mutation_returns m env this ls) as (this1 & ls1 & Hm).
    rewrite Hm. intros Hrest.
    destruct (mutation_extends_trail m env states this this1 ls ls1 Ht
                ltac:(lia) Hm) as [[-> ->]|Ht1].
    + destruct (IH states this this' ls ls' Ht ltac:(lia) Hrest)
        as (later & Hl1 & Hl2 & Hl3).
      exists later. split; [exact Hl1|]. split; [lia | exact Hl3].
    + destruct (IH (states ++ [tasks this]) this1 this' ls1 ls' Ht1)
        as (later & Hl1 & Hl2 & Hl3).
      { rewrite length_app. cbn. lia. }
      { exact Hrest. }
      exists (tasks this :: later). rewrite <- app_assoc in Hl1.
      split; [exact Hl1|]. split; [cbn; lia | reflexivity].
Qed.

(** X5: the history under a sequence of operations.  On an application
    whose history is the trail of [states], a sequence of operations
    that keeps the trail within 50 entries returns and leaves the trail
    of [states]
    followed by the task lists found by the operations that took effect,
    at most one per operation; the first of these (or the final task
    list, when no operation took effect) is the task list the sequence
    started from. *)
Theorem apply_all_trail
  (ms : list (Mutation * Env)) (states : list (list Task))
  (this : TaskFlowApp) (ls : LocalStorage) :
  trail states this ->
  (length states + length ms <= 50)%nat ->
  exists this' ls' later,
    apply_all ms this ls = (Return this', ls')
    /\ trail (states ++ later) this'
    /\ (length later <= length ms)%nat
    /\ head (later ++ [tasks this']) = Some (tasks this).
Proof.
  intros Ht Hlen.
  destruct (apply_all_returns ms this ls) as (this' & ls' & Hrun).
  destruct (apply_all_extends_trail ms states this this' ls ls' Ht Hlen Hrun)
    as (later & Hl).
  exists this', ls', later. split; [exact Hrun | exact Hl].
Qed.

Lemma undo_at_zero (env : Env) (this : TaskFlowApp) (ls : LocalStorage) :
  (historyIndex this <= 0)%Z -> undo env this ls = (Return this, ls).
Proof.
  intros Hi. unfold undo.
  destruct (Z.ltb_spec 0 (historyIndex this)); [lia | reflexivity].
Qed.

(** One [undo] above index 0 restores the state one below the index. *)
Lemma undo_step (env : Env) (states : list (list Task)) (this : TaskFlowApp)
  (ls : LocalStorage) (k : nat) (T : list Task) :
  history this = map snapshot states ->
  historyIndex this = Z.of_nat (S k) ->
  states !! k = Some T ->
  round_trips T ->
  exists ls',
    undo env this ls =
      (Return {| tasks := T; history := history this; historyIndex := Z.of_nat k |},
       ls').
Proof.
  intros Hh Hi Hk HT. unfold undo. rewrite Hi.
  destruct (Z.ltb_spec 0 (Z.of_nat (S k))) as [_|Hle]; [|lia].
  replace (Z.of_nat (S k) - 1)%Z with (Z.of_nat k) by lia.
  rewrite Nat2Z.id, Hh, list_lookup_fmap, Hk. cbn [fmap option_fmap option_map].
  unfold round_trips in HT. rewrite HT. eff_simpl.
  rewrite tasks_of_js_of_tasks. eff_simpl.
  match goal with
  | |- context [saveData env ?t ls] =>
      destruct (saveData_outcome env t ls) as [ls' Hs]; rewrite Hs
  end.
  exists ls'. reflexivity.
Qed.

Lemma repeat_undo_steps (env : Env) (states : list (list Task)) (n : nat) :
  Forall round_trips states ->
  forall (this : TaskFlowApp) (ls : LocalStorage) (k : nat),
    history this = map snapshot states ->
    historyIndex this = Z.of_nat k ->
    (k < length states)%nat ->
    (1 <= n <= k)%nat ->
    exists this' ls',
      repeat_undo n env this ls = (Return this', ls')
      /\ states !! (k - n)%nat = Some (tasks this')
      /\ history this' = history this
      /\ historyIndex this' = Z.of_nat (k - n).
Proof.
  intros Hrt. induction n as [|n IH]; intros this ls k Hh Hi Hk Hn; [lia|].
  destruct k as [|k]; [lia|].
  destruct (lookup_lt_is_Some_2 states k ltac:(lia)) as [T HT].
  assert (HrT : round_trips T).
  { rewrite Forall_forall in Hrt. apply Hrt. eapply list_elem_of_lookup_2, HT. }
  destruct (undo_step env states this ls k T Hh Hi HT HrT) as [ls1 Hu].
  cbn [repeat_undo]. rewrite Eff_bind_eq, Hu.
  destruct n as [|n].
  - cbn [repeat_undo]. eexists _, ls1. split; [reflexivity|].
    cbn [tasks history historyIndex]. replace (S k - 1)%nat with k by lia.
    split; [exact HT|]. split; reflexivity.
  - destruct (IH {| tasks := T; history := history this;
                    historyIndex := Z.of_nat k |}
                ls1 k Hh eq_refl ltac:(lia) ltac:(lia))
      as (this' & ls' & Hr & Hl & Hh' & Hi').
    exists this', ls'. split; [exact Hr|].
    replace (S k - S (S n))%nat with (k - S n)%nat by lia.
    split; [exact Hl|]. split; [exact Hh' | exact Hi'].
Qed.

(** X6: [undo] on a trail of at least two states whose snapshots the
    host's JSON codec reads back.  The first [undo] restores the state
    before the last but one recorded operation (it steps over the last
    snapshot), and as many calls of [undo] as the trail has states end
    in the oldest state, with [historyIndex] at 0. *)
Theorem undo_on_trail
  (env : Env) (states : list (list Task)) (this : TaskFlowApp)
  (ls : LocalStorage) :
  trail states this ->
  Forall round_trips states ->
  (2 <= length states)%nat ->
  (exists this1 ls1,
      undo env this ls = (Return this1, ls1)
      /\ states !! (length states - 2)%nat = Some (tasks this1))
  /\ (exists this' ls',
        repeat_undo (length states) env this ls = (Return this', ls')
        /\ head states = Some (tasks this')
        /\ historyIndex this' = 0%Z).
Proof.
  intros [Hh Hi] Hrt Hlen.
  assert (Hi' : historyIndex this = Z.of_nat (length states - 1)) by lia.
  split.
  - destruct (repeat_undo_steps env states 1 Hrt this ls (length states - 1)
                Hh Hi' ltac:(lia) ltac:(lia)) as (this1 & ls1 & Hr & Hl & _).
    exists this1, ls1. cbn [repeat_undo] in Hr. rewrite Eff_bind_eq in Hr.
    destruct (undo env this ls) as [[r|e] lsx]; [|discriminate].
    rewrite Eff_ret_eq in Hr. split; [exact Hr|].
    replace (length states - 2)%nat with (length states - 1 - 1)%nat by lia.
    exact Hl.
  - destruct (repeat_undo_steps env states (length states - 1) Hrt this ls
                (length states - 1) Hh Hi' ltac:(lia) ltac:(lia))
      as (this' & ls' & Hr & Hl & Hh' & Hidx).
    exists this', ls'.
    replace (length states - 1 - (length states - 1))%nat with 0%nat in * by lia.
    split; [|split; [rewrite head_lookup; exact Hl | exact Hidx]].
    replace (length states) with (length states - 1 + 1)%nat at 1 by lia.
    clear -Hr Hidx.
    revert Hr. generalize (length states - 1)%nat as n. intros n.
    revert this ls. induction n as [|n IH]; intros this ls.
    + cbn [repeat_undo Nat.add]. intros [= <- <-].
      rewrite Eff_bind_eq, undo_at_zero by lia. reflexivity.
    + cbn [repeat_undo Nat.add]. rewrite !Eff_bind_eq.
      destruct (undo env this ls) as [[r|e] lsx]; [|discriminate].
      apply IH.
Qed.

End TrailFacts.

(** Three operations on a new application. *)
Lemma apply_all_trail_witness :
  let ms := [(AddTask Samples.milk, Samples.env0);
             (ToggleTask 1%float, Samples.env0);
             (ToggleAllTasks, Samples.env1)] in
  @trail Reference.platform [] constructor
  /\ exists this' ls' later,
       @apply_all Reference.platform ms constructor Samples.empty_storage
         = (Return this', ls')
       /\ @trail Reference.platform ([] ++ later) this'
       /\ (length later <= length ms)%nat
       /\ head (later ++ [tasks this']) = Some (tasks constructor).
Proof.
  cbv zeta.
  assert (Ht : @trail Reference.platform [] constructor) by (split; reflexivity).
  split; [exact Ht|].
  apply (@apply_all_trail Reference.platform _ [] constructor
           Samples.empty_storage Ht).
  cbn. lia.
Defined.

(** [toggleAllTasks] on a sample store whose two tasks have ids of their
    own. *)
Lemma operations_preserve_distinct_ids_witness :
  distinct_ids (tasks Samples.app0)
  /\ exists this' ls',
       @apply_mutation Reference.platform ToggleAllTasks Samples.env0 Samples.app0
         Samples.empty_storage = (Return this', ls')
       /\ distinct_ids (tasks this').
Proof.
  assert (Hd : distinct_ids (tasks Samples.app0)).
  { repeat constructor. }
  split; [exact Hd|].
  apply (@operations_preserve_distinct_ids Reference.platform ToggleAllTasks
           Samples.env0 Samples.app0 Samples.empty_storage Hd).
  exact I.
Defined.

(** Two calls of [undo] on a sample application with two snapshots. *)
Lemma undo_on_trail_witness :
  @trail Reference.platform [[]; [Samples.milk]] Samples.app2
  /\ (exists this1 ls1,
        @undo Reference.platform Samples.env0 Samples.app2 Samples.empty_storage
          = (Return this1, ls1)
        /\ [[]; [Samples.milk]] !! 0%nat = Some (tasks this1))
  /\ (exists this' ls',
        @repeat_undo Reference.platform 2 Samples.env0 Samples.app2
          Samples.empty_storage = (Return this', ls')
        /\ head [[]; [Samples.milk]] = Some (tasks this')
        /\ historyIndex this' = 0%Z).
Proof.
  assert (Ht : @trail Reference.platform [[]; [Samples.milk]] Samples.app2)
    by (split; reflexivity).
  split; [exact Ht|].
  apply (@undo_on_trail Reference.platform Samples.env0 [[]; [Samples.milk]]
           Samples.app2 Samples.empty_storage Ht).
  - repeat constructor; vm_compute; reflexivity.
  - cbn. lia.
Defined.

(* --------------------------------------------------------------------- *)
(** ** The store and the storage                                          *)
(* --------------------------------------------------------------------- *)

Lemma setItem_unlimited (key : string) (value : jsstring) (ls : LocalStorage) :
  unlimited ls ->
  localStorage_setItem key value ls =
    (Return tt,
     {| items := <[key := value]> (items ls); quota := None; enabled := true |}).
Proof.
  intros [He Hq]. unfold localStorage_setItem. rewrite He, Hq. reflexivity.
Qed.

Lemma setItem_disabled (key : string) (value : jsstring) (ls : LocalStorage) :
  enabled ls = false ->
  localStorage_setItem key value ls = (Throw SecurityError, ls).
Proof. intros He. unfold localStorage_setItem. rewrite He. reflexivity. Qed.

Section SyncFacts.
Context `{!Platform}.

Ltac saved_step env ls :=
  match goal with
  | |- context [(saveData env ?t ≫= _) ls] =>
      let ls1 := fresh "ls1" in
      let Hs := fresh "Hs" in
      destruct (saveData_then_return env t ls) as [ls1 Hs]; rewrite Hs
  end.

Ltac mutation_cases m this :=
  destruct m as [task|taskId|taskId|taskId answer|confirmed|];
  cbn [apply_mutation];
  [ unfold addTask
  | unfold toggleTask; destruct (find (has_id taskId) (tasks (saveState this)))
  | unfold deleteTask; destruct (find (has_id taskId) (tasks (saveState this)))
  | unfold editTask;
    destruct (find (has_id taskId) (tasks this)) as [task|];
    [ destruct answer as [newText|];
      [ destruct (negb (str_eqb (trim newText) (text task)));
        [ match goal with |- context [isValid ?v] => destruct (isValid v) end | ]
      | ]
    | ]
  | unfold clearCompletedTasks;
    destruct (length (List.filter completed (tasks this)) =? 0)%nat;
    [ | destruct confirmed ]
  | unfold toggleAllTasks ].

(** On a storage that accepts every write, [saveTasks] of a task list
    returns [true] and leaves the snapshot of the list under the tasks
    key; only the tasks key and the metadata key change. *)
Lemma saveTasks_unlimited (T : list Task) (env : Env) (ls : LocalStorage) :
  unlimited ls ->
  exists ls',
    saveTasks (js_of_tasks T) env ls = (Return true, ls')
    /\ unlimited ls'
    /\ items ls' !! STORAGE_KEY = Some (snapshot T)
    /\ (forall key, key <> STORAGE_KEY -> key <> META_KEY ->
          items ls' !! key = items ls !! key).
Proof.
  intros Hu. unfold saveTasks, js_of_tasks. cbn [Array_isArray negb elements].
  rewrite Array_filter_js_of_tasks. eff_simpl.
  rewrite (setItem_unlimited _ _ _ Hu). eff_simpl.
  rewrite setItem_unlimited by (split; reflexivity). eff_simpl.
  eexists. split; [reflexivity|]. cbn [items enabled quota].
  split; [split; reflexivity|]. split.
  - rewrite lookup_insert_ne by exact META_KEY_neq. apply lookup_insert_eq.
  - intros key H1 H2. rewrite !lookup_insert_ne by congruence. reflexivity.
Qed.

(** On a storage that refuses every access, [saveTasks] returns [false]
    and the storage is as before. *)
Lemma saveTasks_disabled (v : jsval) (env : Env) (ls : LocalStorage) :
  enabled ls = false -> saveTasks v env ls = (Return false, ls).
Proof.
  intros He. unfold saveTasks. eff_simpl.
  destruct (Array_isArray v); cbn [negb]; [|reflexivity].
  eff_simpl. destruct (Array_filter valid_task (elements v)); [|reflexivity].
  eff_simpl. rewrite (setItem_disabled _ _ _ He). reflexivity.
Qed.

Lemma saveData_unlimited (env : Env) (this : TaskFlowApp) (ls : LocalStorage) :
  unlimited ls ->
  exists ls',
    saveData env this ls = (Return tt, ls') /\ unlimited ls' /\ synced this ls'.
Proof.
  intros Hu.
  destruct (saveTasks_unlimited (tasks this) env ls Hu) as (ls' & Hs & Hu' & Hk & _).
  exists ls'. unfold saveData. rewrite Eff_bind_eq, Hs. auto.
Qed.

Lemma saveData_disabled (env : Env) (this : TaskFlowApp) (ls : LocalStorage) :
  enabled ls = false -> saveData env this ls = (Return tt, ls).
Proof.
  intros He. unfold saveData.
  rewrite Eff_bind_eq, (saveTasks_disabled _ _ _ He). reflexivity.
Qed.

(** No operation reads the storage: the application it returns is the
    same on every storage. *)
Lemma mutation_result_ignores_storage
  (m : Mutation) (env : Env) (this : TaskFlowApp) (ls1 ls2 : LocalStorage) :
  fst (apply_mutation m env this ls1) = fst (apply_mutation m env this ls2).
Proof.
  mutation_cases m this; try reflexivity;
    saved_step env ls1; saved_step env ls2; reflexivity.
Qed.

(** X7: a failing storage does not stop or undo an operation.  When the
    storage refuses every access, each operation still returns, leaves
    the storage as it was, and returns the application that it returns
    on any other storage: the change in memory is kept although nothing
    was written. *)
Theorem mutation_survives_storage_failure
  (m : Mutation) (env : Env) (this : TaskFlowApp) (ls : LocalStorage) :
  enabled ls = false ->
  exists this',
    apply_mutation m env this ls = (Return this', ls)
    /\ forall ls2, fst (apply_mutation m env this ls2) = Return this'.
Proof.
  intros He.
  assert (Hhere : exists this', apply_mutation m env this ls = (Return this', ls)).
  { mutation_cases m this; try (eexists; reflexivity);
      rewrite Eff_bind_eq, (saveData_disabled _ _ _ He); eexists; reflexivity. }
  destruct Hhere as [this' Hhere]. exists this'. split; [exact Hhere|].
  intros ls2. rewrite (mutation_result_ignores_storage m env this ls2 ls), Hhere.
  reflexivity.
Qed.

Lemma mutation_storage_step
  (m : Mutation) (env : Env) (this this' : TaskFlowApp) (ls ls' : LocalStorage) :
  unlimited ls ->
  apply_mutation m env this ls = (Return this', ls') ->
  unlimited ls'
  /\ ((tasks this' = tasks this /\ ls' = ls) \/ synced this' ls').
Proof.
  intros Hu.
  mutation_cases m this;
    try (intros [= <- <-]; split; [exact Hu | left; split; reflexivity]);
    rewrite Eff_bind_eq;
    match goal with
    | |- context [saveData env ?t ls] =>
        destruct (saveData_unlimited env t ls Hu) as (ls1 & Hs & Hu1 & Hsync);
        rewrite Hs
    end;
    intros [= <- <-]; (split; [exact Hu1 | right; exact Hsync]).
Qed.

(** X8: memory and storage stay in step.  On a storage that accepts
    every write, an operation returns and either leaves both the tasks
    and the storage as they were, or leaves under the tasks key the snapshot of
    the tasks it returns; the storage still accepts every write. *)
Theorem mutation_keeps_storage_in_step
  (m : Mutation) (env : Env) (this : TaskFlowApp) (ls : LocalStorage) :
  unlimited ls ->
  exists this' ls',
    apply_mutation m env this ls = (Return this', ls')
    /\ unlimited ls'
    /\ ((tasks this' = tasks this /\ ls' = ls) \/ synced this' ls').
Proof.
  intros Hu.
  destruct (apply_mutation_returns m env this ls) as (this' & ls' & Hm).
  exists this', ls'. split; [exact Hm|].
  exact (mutation_storage_step m env this this' ls ls' Hu Hm).
Qed.

(** The same for [undo], when it returns. *)
Lemma undo_keeps_storage_in_step
  (env : Env) (this this' : TaskFlowApp) (ls ls' : LocalStorage) :
  unlimited ls ->
  undo env this ls = (Return this', ls') ->
  unlimited ls' /\ ((this' = this /\ ls' = ls) \/ synced this' ls').
Proof.
  intros Hu. unfold undo.
  destruct (0 <? historyIndex this)%Z;
    [|intros [= <- <-]; split; [exact Hu | left; split; reflexivity]].
  rewrite Eff_bind_eq, pure_exc_eq.
  destruct (history this !! Z.to_nat (historyIndex this - 1)) as [text|];
    [|discriminate].
  destruct (JSON_parse text) as [parsed|]; [|discriminate].
  rewrite Eff_bind_eq, pure_exc_eq.
  destruct (tasks_of_js parsed) as [restored|]; [|discriminate].
  rewrite Eff_bind_eq.
  match goal with
  | |- context [saveData env ?t ls] =>
      destruct (saveData_unlimited env t ls Hu) as (ls1 & Hs & Hu1 & Hsync);
      rewrite Hs
  end.
  intros [= <- <-]. split; [exact Hu1 | right; exact Hsync].
Qed.

(** [loadTasks] on a storage whose tasks key holds the snapshot of a
    list of storable tasks. *)
Lemma loadTasks_of_snapshot (T : list Task) (env : Env) (ls : LocalStorage) :
  enabled ls = true ->
  items ls !! STORAGE_KEY = Some (snapshot T) ->
  Forall storable T ->
  JSON_parse [] = None ->
  round_trips T ->
  loadTasks env ls = (Return (map js_of_task T), ls).
Proof.
  intros He Hstored HT Hempty Hcodec. unfold round_trips in Hcodec.
  unfold loadTasks. eff_simpl. unfold localStorage_getItem.
  rewrite He, Hstored.
  destruct (snapshot T) as [|c text] eqn:Htext.
  { rewrite Hempty in Hcodec. discriminate. }
  assert (Ht : truthy (VStr (c :: text)) = true) by reflexivity.
  rewrite Ht. cbn [negb]. eff_simpl. rewrite Hcodec.
  cbn [js_of_tasks Array_isArray negb elements].
  rewrite (mapM_with_defaults _ _ HT). reflexivity.
Qed.

(** X9: what a reload sees after an operation.  On a storage that
    accepts every write and is in step with the tasks in memory, every
    operation returns, and after it [loadTasks] returns the tasks the operation left in
    memory, provided they are storable and the host's JSON codec reads
    back their snapshot (and rejects the empty text). *)
Theorem reload_after_mutation
  (m : Mutation) (env env' : Env) (this : TaskFlowApp) (ls : LocalStorage) :
  unlimited ls ->
  synced this ls ->
  JSON_parse [] = None ->
  exists this' ls',
    apply_mutation m env this ls = (Return this', ls')
    /\ (Forall storable (tasks this') ->
        round_trips (tasks this') ->
        loadTasks env' ls' = (Return (map js_of_task (tasks this')), ls')).
Proof.
  intros Hu Hsync Hempty.
  destruct (apply_mutation_returns m env this ls) as (this' & ls' & Hm).
  exists this', ls'. split; [exact Hm|]. intros HT Hcodec.
  destruct (mutation_storage_step m env this this' ls ls' Hu Hm)
    as [[He _] [[Htasks ->]|Hsync']].
  - apply loadTasks_of_snapshot; try assumption.
    rewrite Htasks. exact Hsync.
  - apply loadTasks_of_snapshot; assumption.
Qed.

End SyncFacts.

(** [toggleAllTasks] on a storage that refuses every access. *)
Lemma mutation_survives_storage_failure_witness :
  enabled Samples.locked_storage = false
  /\ exists this',
       @apply_mutation Reference.platform ToggleAllTasks Samples.env0 Samples.app0
         Samples.locked_storage = (Return this', Samples.locked_storage)
       /\ forall ls2,
            fst (@apply_mutation Reference.platform ToggleAllTasks Samples.env0
                   Samples.app0 ls2) = Return this'.
Proof.
  split; [reflexivity|].
  apply (@mutation_survives_storage_failure Reference.platform). reflexivity.
Defined.

(** [deleteTask] of a task of a sample store, on an empty storage. *)
Lemma mutation_keeps_storage_in_step_witness :
  unlimited Samples.empty_storage
  /\ exists this' ls',
       @apply_mutation Reference.platform (DeleteTask 1700000000000.5%float)
         Samples.env0 Samples.app0 Samples.empty_storage = (Return this', ls')
       /\ unlimited ls'
       /\ ((tasks this' = tasks Samples.app0 /\ ls' = Samples.empty_storage)
           \/ @synced Reference.platform this' ls').
Proof.
  assert (Hu : unlimited Samples.empty_storage) by (split; reflexivity).
  split; [exact Hu|].
  apply (@mutation_keeps_storage_in_step Reference.platform
           (DeleteTask 1700000000000.5%float) Samples.env0 Samples.app0
           Samples.empty_storage Hu).
Defined.

(** [toggleAllTasks] on a sample store that was saved before, and the
    reload after it. *)
Lemma reload_after_mutation_witness :
  let ls := snd (@saveData Reference.platform Samples.env0 Samples.app0
                   Samples.empty_storage) in
  unlimited ls
  /\ @synced Reference.platform Samples.app0 ls
  /\ exists this' ls',
       @apply_mutation Reference.platform ToggleAllTasks Samples.env1
         Samples.app0 ls = (Return this', ls')
       /\ (Forall storable (tasks this') ->
           @round_trips Reference.platform (tasks this') ->
           @loadTasks Reference.platform Samples.env0 ls'
           = (Return (map js_of_task (tasks this')), ls')).
Proof.
  cbv zeta.
  assert (Hu : unlimited (snd (@saveData Reference.platform Samples.env0
                                 Samples.app0 Samples.empty_storage)))
    by (split; vm_compute; reflexivity).
  assert (Hsync : @synced Reference.platform Samples.app0
                    (snd (@saveData Reference.platform Samples.env0 Samples.app0
                            Samples.empty_storage)))
    by (vm_compute; reflexivity).
  split; [exact Hu|]. split; [exact Hsync|].
  apply (@reload_after_mutation Reference.platform ToggleAllTasks Samples.env1
           Samples.env0 Samples.app0 _ Hu Hsync).
  reflexivity.
Defined.

(* --------------------------------------------------------------------- *)
(** ** What the validator accepts and what a submission stores            *)
(* --------------------------------------------------------------------- *)

Lemma replace_ws_runs_units (b : bool) (s : jsstring) :
  Forall (fun c => is_whitespace c = true -> c = 32%N) (replace_ws_runs b s).
Proof.
  revert b. induction s as [|c s IH]; intros b; [constructor|].
  cbn [replace_ws_runs]. destruct (is_whitespace c) eqn:Hc; [destruct b|].
  - apply IH.
  - constructor; [reflexivity | apply IH].
  - constructor; [congruence | apply IH].
Qed.

Lemma replace_ws_runs_no_whitespace (b : bool) (s : jsstring) :
  Forall (fun c => is_whitespace c = false) s -> replace_ws_runs b s = s.
Proof.
  intros Hs. revert b. induction Hs as [|c s Hc Hs IH]; intros b; [reflexivity|].
  cbn [replace_ws_runs]. rewrite Hc, IH. reflexivity.
Qed.

Lemma angle_bracket_not_whitespace (c : N) :
  is_angle_bracket c = true -> is_whitespace c = false /\ allowed_char c = true.
Proof.
  unfold is_angle_bracket. rewrite orb_true_iff, !N.eqb_eq.
  intros [->| ->]; split; reflexivity.
Qed.

Lemma remove_angle_brackets_all (s : jsstring) :
  Forall (fun c => is_angle_bracket c = true) s -> remove_angle_brackets s = [].
Proof.
  induction 1 as [|c s Hc Hs IH]; [reflexivity|].
  unfold remove_angle_brackets in *. cbn [List.filter]. rewrite Hc. exact IH.
Qed.

(** X10: the sanitized value has at most 200 code units, holds no angle
    bracket, and every white-space unit in it is a space. *)
Theorem sanitizeInput_output (input : jsstring) :
  (length (sanitizeInput input) <= 200)%nat
  /\ Forall (fun c => is_angle_bracket c = false
                      /\ (is_whitespace c = true -> c = 32%N))
       (sanitizeInput input).
Proof.
  unfold sanitizeInput, substring0, maxLength. split.
  - rewrite length_take. lia.
  - apply Forall_take. rewrite replace_breaks_ws_runs.
    unfold remove_angle_brackets.
    pose proof (replace_ws_runs_units false (trim input)) as Hu.
    induction Hu as [|c s Hc Hs IH]; [constructor|].
    cbn [List.filter]. destruct (is_angle_bracket c) eqn:Hb; cbn [negb];
      [exact IH | constructor; [split; [exact Hb | exact Hc] | exact IH]].
Qed.

Section SubmitFacts.
Context `{!Platform}.

Lemma existsb_duplicate_false (value : jsstring) (existingTasks : list Task) :
  existsb (fun task => str_eqb (trim (toLowerCase (text task))) (toLowerCase value))
    existingTasks = false
  <-> Forall (fun task => trim (toLowerCase (text task)) <> toLowerCase value)
        existingTasks.
Proof.
  induction existingTasks as [|t ts IH]; cbn [existsb].
  - split; [constructor | reflexivity].
  - rewrite orb_false_iff, IH, Forall_cons. unfold str_eqb.
    rewrite bool_decide_eq_false. reflexivity.
Qed.

Lemma nonempty_and_existsb {A : Type} (f : A -> bool) (l : list A) :
  (0 <? length l)%nat && existsb f l = existsb f l.
Proof. destruct l; reflexivity. Qed.

Lemma isValid_iff_acceptable (input : jsstring) (existingTasks : list Task) :
  isValid (validateTaskInput input existingTasks) = true
  <-> acceptable (trim input) existingTasks.
Proof.
  unfold acceptable.
  destruct (decide (trim input = [])) as [Hv|Hv].
  - rewrite (validateTaskInput_required _ _ Hv). cbn [isValid].
    split; [discriminate | intros [Hne _]; congruence].
  - assert (Hvalid : isValid (validateTaskInput input existingTasks)
                     = (length (errors (validateTaskInput input existingTasks)) =? 0)%nat).
    { unfold validateTaskInput. rewrite (truthy_VStr_nonempty _ Hv).
      pose proof (length_nonempty _ Hv) as Hlen.
      destruct (length (trim input)) as [|n] eqn:Hn; [lia|]. reflexivity. }
    rewrite Hvalid, (validateTaskInput_errors _ _ Hv).
    pose proof (length_nonempty _ Hv) as Hlen.
    unfold minLength, maxLength.
    rewrite <- existsb_duplicate_false.
    rewrite nonempty_and_existsb.
    destruct (Nat.ltb_spec (length (trim input)) 1) as [Hs|Hs]; [lia|].
    destruct (Nat.ltb_spec 200 (length (trim input))) as [Hl|Hl];
      destruct (allowedChars_test (trim input));
      match goal with
      | |- context [existsb ?f existingTasks] => destruct (existsb f existingTasks)
      end;
      cbn; split; intros; repeat split;
      intuition (try discriminate; try lia; try congruence).
Qed.

(** X11: the validator accepts an input exactly when its trimmed value is not
    empty, has at most 200 code units, matches the allowed-character
    pattern, and is not, up to case, the trimmed text of an existing
    task. *)
Theorem validateTaskInput_accepts (input : jsstring) (existingTasks : list Task) :
  isValid (validateTaskInput input existingTasks) = true
  <-> acceptable (trim input) existingTasks.
Proof. apply isValid_iff_acceptable. Qed.

Lemma isValid_acceptable (input : jsstring) (existingTasks : list Task) :
  acceptable (trim input) existingTasks ->
  isValid (validateTaskInput input existingTasks) = true.
Proof. apply isValid_iff_acceptable. Qed.

Lemma isValid_not_acceptable (input : jsstring) (existingTasks : list Task) :
  ~ acceptable (trim input) existingTasks ->
  isValid (validateTaskInput input existingTasks) = false.
Proof.
  intros Hn. destruct (isValid _) eqn:Hv; [|reflexivity].
  apply isValid_iff_acceptable in Hv. contradiction.
Qed.

(** X12: a rejected submission changes nothing: no task, no history entry, no
    write to the storage. *)
Theorem handleTaskSubmit_rejected
  (inputValue : jsstring) (env : Env) (this : TaskFlowApp) (ls : LocalStorage) :
  ~ acceptable (trim inputValue) (tasks this) ->
  handleTaskSubmit inputValue env this ls = (Return this, ls).
Proof.
  intros Hn. unfold handleTaskSubmit.
  rewrite (isValid_not_acceptable _ _ Hn). reflexivity.
Qed.

Lemma handleTaskSubmit_adds
  (inputValue : jsstring) (env : Env) (this : TaskFlowApp) (ls : LocalStorage) :
  acceptable (trim inputValue) (tasks this) ->
  exists ls',
    handleTaskSubmit inputValue env this ls =
      (Return (set_tasks (createTask (trim inputValue) env :: tasks this)
                 (saveState this)), ls').
Proof.
  intros Ha. unfold handleTaskSubmit.
  rewrite (isValid_acceptable _ _ Ha), validateTaskInput_cleaned. cbn [negb].
  unfold addTask.
  match goal with
  | |- context [(saveData env ?t ≫= _) ls] =>
      destruct (saveData_outcome env t ls) as [ls' Hs]; exists ls'
  end.
  rewrite Eff_bind_eq, Hs. reflexivity.
Qed.

(** X13: an accepted submission puts one new task in front of the others:
    its text is the sanitized form of the trimmed input, it is not
    completed, its id is the sum of the clock and the random number, and
    both timestamps are the current time; the state before it is pushed
    on the history. *)
Theorem handleTaskSubmit_accepted
  (inputValue : jsstring) (env : Env) (this : TaskFlowApp) (ls : LocalStorage) :
  acceptable (trim inputValue) (tasks this) ->
  exists this' ls',
    handleTaskSubmit inputValue env this ls = (Return this', ls')
    /\ tasks this' =
         {| id := PrimFloat.add (Date_now env) (Math_random env);
            text := sanitizeInput (trim inputValue);
            completed := false;
            createdAt := Date_toISOString env;
            updatedAt := Date_toISOString env |} :: tasks this
    /\ history this' = history (saveState this)
    /\ historyIndex this' = historyIndex (saveState this)
    /\ saveData env this' ls = (Return tt, ls').
Proof.
  intros Ha. unfold handleTaskSubmit.
  rewrite (isValid_acceptable _ _ Ha), validateTaskInput_cleaned. cbn [negb].
  unfold addTask.
  match goal with
  | |- context [(saveData env ?t ≫= _) ls] =>
      destruct (saveData_outcome env t ls) as [ls' Hs]; exists t, ls'
  end.
  rewrite Eff_bind_eq, Hs. repeat split; reflexivity.
Qed.

(** X14: the text is sanitized after it was validated: an accepted input made
    of angle brackets only is stored as a task with an empty text. *)
Theorem handleTaskSubmit_stores_empty_text
  (inputValue : jsstring) (env : Env) (this : TaskFlowApp) (ls : LocalStorage) :
  inputValue <> [] ->
  (length inputValue <= 200)%nat ->
  Forall (fun c => is_angle_bracket c = true) inputValue ->
  Forall (fun task => trim (toLowerCase (text task)) <> toLowerCase inputValue)
    (tasks this) ->
  exists this' ls' task,
    handleTaskSubmit inputValue env this ls = (Return this', ls')
    /\ tasks this' = task :: tasks this
    /\ text task = [].
Proof.
  intros Hne Hlen Hb Hdup.
  assert (Hws : Forall (fun c => is_whitespace c = false) inputValue).
  { eapply Forall_impl; [exact Hb|]. intros c Hc.
    apply (angle_bracket_not_whitespace c Hc). }
  assert (Htrim : trim inputValue = inputValue).
  { apply trim_clean.
    - destruct Hws; [exact I | assumption].
    - unfold ends_clean. apply Forall_rev in Hws.
      destruct Hws; [exact I | assumption]. }
  assert (Ha : acceptable (trim inputValue) (tasks this)).
  { rewrite Htrim. repeat split; try assumption.
    unfold allowedChars_test. apply forallb_forall. intros c Hc.
    rewrite Forall_forall in Hb. apply angle_bracket_not_whitespace, Hb.
    apply list_elem_of_In, Hc. }
  destruct (handleTaskSubmit_adds inputValue env this ls Ha) as (ls1 & ->).
  eexists _, _, _. split; [reflexivity|]. split; [reflexivity|].
  cbn [text createTask].
  rewrite Htrim. unfold sanitizeInput, substring0. rewrite Htrim.
  rewrite replace_breaks_ws_runs, (replace_ws_runs_no_whitespace _ _ Hws),
    (remove_angle_brackets_all _ Hb). reflexivity.
Qed.

End SubmitFacts.

(* --------------------------------------------------------------------- *)
(** ** Strict equality of numbers                                         *)
(* --------------------------------------------------------------------- *)

(** Two numbers that are [===] to a third are [===] to each other. *)
Lemma SFeqb_true_trans (a b c : SpecFloat.spec_float) :
  SpecFloat.SFeqb a c = true -> SpecFloat.SFeqb b c = true ->
  SpecFloat.SFeqb a b = true.
Proof.
  unfold SpecFloat.SFeqb, SpecFloat.SFcompare.
  destruct a as [sa|sa| |sa ma ea], c as [sc|sc| |sc mc ec];
    try discriminate;
    destruct b as [sb|sb| |sb mb eb]; try discriminate; try reflexivity;
    try (destruct sa, sc; try discriminate; destruct sb; try discriminate;
         reflexivity).
  destruct sa, sc; try discriminate; destruct sb; try discriminate;
    destruct (Z.compare_spec ea ec); try discriminate;
    destruct (Z.compare_spec eb ec); try discriminate; subst;
    rewrite Z.compare_refl;
    destruct (Pos.compare_cont Eq ma mc) eqn:H1; try discriminate;
    destruct (Pos.compare_cont Eq mb mc) eqn:H2; try discriminate;
    apply Pos.compare_eq in H1, H2; subst; rewrite Pos.compare_cont_refl;
    reflexivity.
Qed.

Lemma eqb_true_trans (a b c : float) :
  PrimFloat.eqb a c = true -> PrimFloat.eqb b c = true -> PrimFloat.eqb a b = true.
Proof. rewrite !FloatAxioms.eqb_spec. apply SFeqb_true_trans. Qed.


(* --------------------------------------------------------------------- *)
(** ** What each operation leaves in the store                            *)
(* --------------------------------------------------------------------- *)

Lemma find_splice_found (p : Task -> bool) (ts : list Task) (t : Task) :
  find p ts = Some t ->
  exists before after,
    ts = before ++ t :: after
    /\ splice_found p ts = before ++ after
    /\ Forall (fun u => p u = false) before
    /\ p t = true.
Proof.
  induction ts as [|u ts IH]; [discriminate|].
  cbn [find splice_found]. destruct (p u) eqn:Hu.
  - intros [= <-]. exists [], ts. repeat split; [constructor | exact Hu].
  - intros Hfind. destruct (IH Hfind) as (before & after & -> & Hs & Hb & Ht).
    exists (u :: before), after. rewrite Hs.
    repeat split; [constructor; assumption | exact Ht].
Qed.

Lemma distinct_numbers_app_cons (l1 l2 : list float) (x : float) :
  distinct_numbers (l1 ++ x :: l2) ->
  Forall (fun y => PrimFloat.eqb y x = false) l2.
Proof.
  induction l1 as [|y l1 IH]; cbn [app distinct_numbers]; intros [Hx Hd];
    [exact Hx | exact (IH Hd)].
Qed.

Lemma filter_none_completed (ts : list Task) :
  length (List.filter completed ts) = 0%nat ->
  List.filter (fun t => negb (completed t)) ts = ts.
Proof.
  induction ts as [|t ts IH]; [reflexivity|].
  cbn [List.filter]. destruct (completed t); cbn [negb length]; [discriminate|].
  intros Hl. rewrite (IH Hl). reflexivity.
Qed.

Lemma filter_completed_of_active (ts : list Task) :
  List.filter completed (List.filter (fun t => negb (completed t)) ts) = [].
Proof.
  induction ts as [|t ts IH]; [reflexivity|].
  cbn [List.filter]. destruct (completed t) eqn:Ht; cbn [negb List.filter];
    [exact IH | rewrite Ht; exact IH].
Qed.

Section OperationFacts.
Context `{!Platform}.

(** X15: [deleteTask] on the id of a task of the store removes the first task
    with that id and keeps the others in their order; when no two tasks
    share an id, no task with that id is left. *)
Theorem deleteTask_removes_found
  (taskId : float) (env : Env) (this : TaskFlowApp) (ls : LocalStorage)
  (task : Task) :
  find (has_id taskId) (tasks this) = Some task ->
  exists this' ls' before after,
    deleteTask taskId env this ls = (Return this', ls')
    /\ tasks this = before ++ task :: after
    /\ tasks this' = before ++ after
    /\ Forall (fun u => has_id taskId u = false) before
    /\ (distinct_ids (tasks this) ->
        Forall (fun u => has_id taskId u = false) (tasks this'))
    /\ history this' = history (saveState this)
    /\ saveData env this' ls = (Return tt, ls').
Proof.
  intros Hfind. unfold deleteTask. cbn [saveState tasks]. rewrite Hfind.
  destruct (find_splice_found _ _ _ Hfind) as (before & after & Hts & Hsp & Hb & Ht).
  match goal with
  | |- context [(saveData env ?t ≫= _) ls] =>
      destruct (saveData_outcome env t ls) as [ls' Hs];
      exists t, ls', before, after
  end.
  rewrite Eff_bind_eq, Hs. cbn [set_tasks tasks history].
  split; [reflexivity|]. split; [exact Hts|]. split; [exact Hsp|].
  split; [exact Hb|]. split; [|split; reflexivity].
  intros Hd. rewrite Hsp. apply Forall_app. split; [exact Hb|].
  unfold distinct_ids in Hd. rewrite Hts, map_app in Hd. cbn [map] in Hd.
  apply distinct_numbers_app_cons in Hd.
  rewrite Forall_map in Hd. eapply Forall_impl; [exact Hd|].
  intros u Hu. unfold has_id in *. cbn beta in Hu.
  destruct (PrimFloat.eqb (id u) taskId) eqn:Hut; [|reflexivity].
  rewrite (eqb_true_trans _ _ _ Hut Ht) in Hu. discriminate.
Qed.

(** X16: [clearCompletedTasks], once confirmed, leaves the active tasks in
    their order: the list that the filter [active] showed before.  No
    completed task is left, the counters show as many tasks as were
    active, and the button that clears completed tasks is hidden.
    Without the confirmation nothing changes. *)
Theorem clearCompletedTasks_leaves_active
  (env : Env) (this : TaskFlowApp) (ls : LocalStorage) :
  (exists this' ls',
     clearCompletedTasks true env this ls = (Return this', ls')
     /\ tasks this' = filterTasks (tasks this) "active"
     /\ filterTasks (tasks this') "completed" = []
     /\ allCount (updateTaskCounters (tasks this'))
        = Render.activeCount (updateTaskCounters (tasks this))
     /\ clearCompletedDisplay (updateTaskCounters (tasks this')) = "none")
  /\ clearCompletedTasks false env this ls = (Return this, ls).
Proof.
  split.
  - assert (Hres : exists this' ls',
               clearCompletedTasks true env this ls = (Return this', ls')
               /\ tasks this' = List.filter (fun t => negb (completed t)) (tasks this)).
    { unfold clearCompletedTasks.
      destruct (length (List.filter completed (tasks this)) =? 0)%nat eqn:Hc.
      - exists this, ls. split; [reflexivity|].
        symmetry. apply filter_none_completed, Nat.eqb_eq, Hc.
      - match goal with
        | |- context [(saveData env ?t ≫= _) ls] =>
            destruct (saveData_outcome env t ls) as [ls' Hs]; exists t, ls'
        end.
        rewrite Eff_bind_eq, Hs. split; reflexivity. }
    destruct Hres as (this' & ls' & Hrun & Htasks).
    exists this', ls'. split; [exact Hrun|].
    unfold filterTasks, updateTaskCounters.
    cbn [String.eqb Ascii.eqb Bool.eqb andb allCount Render.activeCount
         Render.completedCount clearCompletedDisplay].
    rewrite Htasks.
    change (fun task : Task => completed task) with completed.
    rewrite filter_completed_of_active.
    repeat split; reflexivity.
  - unfold clearCompletedTasks.
    destruct (length (List.filter completed (tasks this)) =? 0)%nat; reflexivity.
Qed.

(** X17: [toggleAllTasks] keeps the tasks, their order, ids, texts and
    creation times, stamps every task with the current time, and sets
    every [completed] flag to the same value: [false] when all tasks were
    completed (also when there is none), [true] otherwise. *)
Theorem toggleAllTasks_sets_every_flag
  (env : Env) (this : TaskFlowApp) (ls : LocalStorage) :
  exists this' ls',
    toggleAllTasks env this ls = (Return this', ls')
    /\ map id (tasks this') = map id (tasks this)
    /\ map text (tasks this') = map text (tasks this)
    /\ map createdAt (tasks this') = map createdAt (tasks this)
    /\ Forall (fun t => completed t = negb (forallb completed (tasks this))
                        /\ updatedAt t = Date_toISOString env) (tasks this')
    /\ (tasks this <> [] ->
        forallb completed (tasks this') = negb (forallb completed (tasks this))).
Proof.
  unfold toggleAllTasks.
  match goal with
  | |- context [(saveData env ?t ≫= _) ls] =>
      destruct (saveData_outcome env t ls) as [ls' Hs]; exists t, ls'
  end.
  rewrite Eff_bind_eq, Hs. cbn [set_tasks tasks saveState].
  split; [reflexivity|].
  rewrite !map_map. cbn [id text createdAt].
  split; [reflexivity|]. split; [reflexivity|]. split; [reflexivity|].
  split.
  - apply Forall_map, Forall_forall. intros t _. split; reflexivity.
  - intros Hne. generalize (negb (forallb completed (tasks this))). intros b.
    destruct (tasks this) as [|t ts]; [congruence|]. clear.
    cbn [map forallb completed]. destruct b; cbn [andb]; [|reflexivity].
    induction ts as [|u ts IH]; [reflexivity | exact IH].
Qed.

(** X18: [editTask] with an answer whose trimmed value differs from the text
    of the task found.  When the validator accepts the answer against
    the other tasks, the task found under the id afterwards has the
    trimmed answer as its text (as typed: it is not sanitized) and the
    current time as [updatedAt], and the number of tasks is unchanged;
    otherwise nothing changes. *)
Theorem editTask_stores_trimmed_answer
  (taskId : float) (newText : jsstring) (env : Env) (this : TaskFlowApp)
  (ls : LocalStorage) (task : Task) :
  find (has_id taskId) (tasks this) = Some task ->
  trim newText <> text task ->
  let others := List.filter (fun t => negb (has_id taskId t)) (tasks this) in
  (acceptable (trim newText) others ->
   exists this' ls',
     editTask taskId (Some newText) env this ls = (Return this', ls')
     /\ find (has_id taskId) (tasks this') =
          Some {| id := id task; text := trim newText;
                  completed := completed task;
                  createdAt := createdAt task;
                  updatedAt := Date_toISOString env |}
     /\ length (tasks this') = length (tasks this)
     /\ history this' = history (saveState this)
     /\ saveData env this' ls = (Return tt, ls'))
  /\ (~ acceptable (trim newText) others ->
      editTask taskId (Some newText) env this ls = (Return this, ls)).
Proof.
  intros Hfind Hneq others. subst others.
  assert (Hguard : negb (str_eqb (trim newText) (text task)) = true).
  { unfold str_eqb. rewrite bool_decide_eq_false_2 by exact Hneq. reflexivity. }
  split; intros Ha; unfold editTask; rewrite Hfind, Hguard.
  - rewrite (isValid_acceptable _ _ Ha), validateTaskInput_cleaned.
    match goal with
    | |- context [(saveData env ?t ≫= _) ls] =>
        destruct (saveData_outcome env t ls) as [ls' Hs]; exists t, ls'
    end.
    rewrite Eff_bind_eq, Hs. cbn [set_tasks tasks history saveState].
    split; [reflexivity|]. split.
    { match goal with
      | |- find _ (update_found _ ?f _) = _ =>
          exact (find_update_found (has_id taskId) f _ _ (fun u => eq_refl) Hfind)
      end. }
    split; [apply length_update_found|]. split; reflexivity.
  - rewrite (isValid_not_acceptable _ _ Ha). reflexivity.
Qed.

End OperationFacts.

(* --------------------------------------------------------------------- *)
(** ** Settings, statistics, backup and reset                             *)
(* --------------------------------------------------------------------- *)

Lemma SETTINGS_KEY_neq : SETTINGS_KEY <> STORAGE_KEY /\ SETTINGS_KEY <> META_KEY.
Proof. split; discriminate. Qed.

Lemma lookup_set_prop (name k : string) (v : jsval) (props : list (string * jsval)) :
  lookup_prop name (set_prop k v props) =
    if String.eqb k name then v else lookup_prop name props.
Proof.
  induction props as [|[k' x] rest IH]; cbn [set_prop lookup_prop]; [reflexivity|].
  destruct (String.eqb_spec k' k) as [->|Hk]; cbn [lookup_prop].
  - destruct (String.eqb k name); reflexivity.
  - rewrite IH. destruct (String.eqb_spec k' name) as [->|Hn]; [|reflexivity].
    destruct (String.eqb_spec k name); [congruence | reflexivity].
Qed.

(** A property of [{...target, ...source}] is that of [source] when
    [source] has it, and that of [target] otherwise. *)
Lemma lookup_spread (name : string) (props target : list (string * jsval)) :
  NoDup (map fst props) ->
  lookup_prop name (spread target (VObj props)) =
    if bool_decide (name ∈ map fst props) then lookup_prop name props
    else lookup_prop name target.
Proof.
  unfold spread. cbn [own_props]. intros Hnd. revert target.
  induction props as [|[k v] rest IH]; intros target; cbn [fold_left map fst snd].
  - reflexivity.
  - apply NoDup_cons in Hnd as [Hk Hnd]. rewrite (IH Hnd), lookup_set_prop.
    cbn [lookup_prop]. destruct (String.eqb_spec k name) as [->|Hn].
    + rewrite (bool_decide_eq_false_2 _ Hk).
      rewrite bool_decide_eq_true_2 by constructor. reflexivity.
    + destruct (decide (name ∈ map fst rest)) as [Hin|Hin].
      * rewrite !bool_decide_eq_true_2; [reflexivity| |exact Hin].
        constructor. exact Hin.
      * rewrite !bool_decide_eq_false_2; [reflexivity| |exact Hin].
        intros Hc. apply elem_of_cons in Hc as [->|Hc]; [congruence | contradiction].
Qed.

Lemma removeItem_enabled (key : string) (ls : LocalStorage) :
  enabled ls = true ->
  localStorage_removeItem key ls =
    (Return tt,
     {| items := delete key (items ls); quota := quota ls; enabled := true |}).
Proof. intros He. unfold localStorage_removeItem. rewrite He. reflexivity. Qed.

Lemma getItem_enabled (key : string) (ls : LocalStorage) :
  enabled ls = true -> localStorage_getItem key ls = (Return (items ls !! key), ls).
Proof. intros He. unfold localStorage_getItem. rewrite He. reflexivity. Qed.

Lemma getItem_disabled (key : string) (ls : LocalStorage) :
  enabled ls = false -> localStorage_getItem key ls = (Throw SecurityError, ls).
Proof. intros He. unfold localStorage_getItem. rewrite He. reflexivity. Qed.

Lemma getItem_outcome (key : string) (ls : LocalStorage) :
  exists r, localStorage_getItem key ls = (r, ls).
Proof. unfold localStorage_getItem. destruct (enabled ls); eexists; reflexivity. Qed.

Lemma mapM_with_defaults_shape (env : Env) (elems l : list jsval) :
  mapM (with_defaults env) elems = Return l -> Forall loaded_task l.
Proof.
  revert l. induction elems as [|x elems IH]; intros l; cbn [mapM].
  - intros [= <-]. constructor.
  - destruct (with_defaults env x) as [y|e] eqn:Hx; cbn; [|discriminate].
    destruct (mapM (with_defaults env) elems) as [ys|e]; cbn; [|discriminate].
    intros [= <-]. constructor; [|apply IH; reflexivity].
    unfold with_defaults in Hx.
    destruct (get x "id") as [a1|]; cbn in Hx; [|discriminate].
    destruct (get x "text") as [a2|]; cbn in Hx; [|discriminate].
    destruct (get x "completed") as [a3|]; cbn in Hx; [|discriminate].
    destruct (get x "createdAt") as [a4|]; cbn in Hx; [|discriminate].
    destruct (get x "updatedAt") as [a5|]; cbn in Hx; [|discriminate].
    injection Hx as <-. eexists _, _. split; reflexivity.
Qed.

Lemma counts_of_loaded (l : list jsval) :
  Forall loaded_task l ->
  exists lc la,
    Array_filter is_completed l = Return lc
    /\ Array_filter is_active l = Return la
    /\ (length lc + length la = length l)%nat.
Proof.
  induction 1 as [|v l (props & b & -> & Hb) Hl (lc & la & Hc & Ha & Hlen)].
  - exists [], []. repeat split.
  - cbn [Array_filter]. rewrite Hc, Ha.
    unfold is_completed, is_active. cbn [get]. rewrite Hb. cbn.
    destruct b; cbn; eexists _, _; (split; [reflexivity|]);
      (split; [reflexivity|]); cbn [length]; lia.
Qed.

Section BackupFacts.
Context `{!Platform}.

Lemma loadTasks_shape (env : Env) (ls : LocalStorage) :
  exists l, loadTasks env ls = (Return l, ls) /\ Forall loaded_task l.
Proof.
  unfold loadTasks. rewrite try_catch_eq, Eff_bind_eq.
  unfold localStorage_getItem. destruct (enabled ls).
  2:{ exists []. split; [reflexivity | constructor]. }
  destruct (items ls !! STORAGE_KEY) as [stored|].
  2:{ exists []. split; [reflexivity | constructor]. }
  destruct (negb (truthy (VStr stored))).
  { exists []. split; [reflexivity | constructor]. }
  rewrite Eff_bind_eq, pure_exc_eq.
  destruct (JSON_parse stored) as [v|].
  2:{ exists []. split; [reflexivity | constructor]. }
  destruct (negb (Array_isArray v)).
  { exists []. split; [reflexivity | constructor]. }
  rewrite pure_exc_eq.
  destruct (mapM (with_defaults env) (elements v)) as [l|e] eqn:Hm.
  - exists l. split; [reflexivity|]. exact (mapM_with_defaults_shape _ _ _ Hm).
  - exists []. split; [reflexivity | constructor].
Qed.

Lemma saveTasks_returns (v : jsval) (env : Env) (ls : LocalStorage) :
  exists b ls', saveTasks v env ls = (Return b, ls').
Proof.
  unfold saveTasks. rewrite try_catch_eq.
  match goal with
  | |- context [match ?b ls with _ => _ end] => destruct (b ls) as [[r|e] ls1]
  end; eexists _, _; reflexivity.
Qed.

Lemma saveSettings_returns (v : jsval) (ls : LocalStorage) :
  exists b ls', saveSettings v ls = (Return b, ls').
Proof.
  unfold saveSettings. rewrite try_catch_eq.
  match goal with
  | |- context [match ?b ls with _ => _ end] => destruct (b ls) as [[r|e] ls1]
  end; eexists _, _; reflexivity.
Qed.

Lemma saveSettings_disabled (v : jsval) (ls : LocalStorage) :
  enabled ls = false -> saveSettings v ls = (Return false, ls).
Proof.
  intros He. unfold saveSettings. eff_simpl.
  rewrite (setItem_disabled _ _ _ He). reflexivity.
Qed.

Lemma saveSettings_unlimited (v : jsval) (ls : LocalStorage) :
  unlimited ls ->
  saveSettings v ls =
    (Return true,
     {| items := <[SETTINGS_KEY := JSON_stringify v]> (items ls);
        quota := None; enabled := true |}).
Proof.
  intros Hu. unfold saveSettings. eff_simpl.
  rewrite (setItem_unlimited _ _ _ Hu). reflexivity.
Qed.

(** [loadSettings] returns an object, throws nothing and writes nothing. *)
Lemma loadSettings_returns (ls : LocalStorage) :
  exists props, loadSettings ls = (Return (VObj props), ls).
Proof.
  unfold loadSettings. rewrite try_catch_eq, Eff_bind_eq.
  unfold localStorage_getItem. destruct (enabled ls).
  2:{ eexists. reflexivity. }
  destruct (items ls !! SETTINGS_KEY) as [stored|].
  2:{ eexists. reflexivity. }
  destruct (negb (truthy (VStr stored))).
  { eexists. reflexivity. }
  rewrite Eff_bind_eq, pure_exc_eq.
  destruct (JSON_parse stored) as [v|]; eexists; reflexivity.
Qed.

(** X19: [loadSettings] never throws and never writes; it returns an object,
    which is the default settings when the storage refuses access, the
    settings key is absent or holds the empty text, or the text is not
    JSON. *)
Theorem loadSettings_never_raises (ls : LocalStorage) :
  (exists props, loadSettings ls = (Return (VObj props), ls))
  /\ (enabled ls = false
      \/ items ls !! SETTINGS_KEY = None
      \/ items ls !! SETTINGS_KEY = Some []
      \/ (exists stored, items ls !! SETTINGS_KEY = Some stored
                         /\ JSON_parse stored = None) ->
      loadSettings ls = (Return getDefaultSettings, ls)).
Proof.
  split; [apply loadSettings_returns|].
  unfold loadSettings. rewrite try_catch_eq, Eff_bind_eq.
  unfold localStorage_getItem.
  intros [He|Hcase]; [rewrite He; reflexivity|].
  destruct (enabled ls); [|reflexivity].
  destruct Hcase as [->|[->|(stored & -> & Hp)]]; [reflexivity|reflexivity|].
  destruct (negb (truthy (VStr stored))); [reflexivity|].
  rewrite Eff_bind_eq, pure_exc_eq, Hp. reflexivity.
Qed.

(** X20: settings that were saved are read back merged over the defaults: a
    property of the saved object is read back as saved, and every other
    property is the default one (absent when there is no such default).
    The saved object has no repeated property name, and the host's JSON
    codec reads back the text it prints for it and rejects the empty
    text. *)
Theorem saveSettings_loadSettings_merges
  (props : list (string * jsval)) (ls ls' : LocalStorage) :
  NoDup (map fst props) ->
  JSON_parse [] = None ->
  JSON_parse (JSON_stringify (VObj props)) = Some (VObj props) ->
  saveSettings (VObj props) ls = (Return true, ls') ->
  exists loaded,
    loadSettings ls' = (Return (VObj loaded), ls')
    /\ forall name,
         lookup_prop name loaded =
           if bool_decide (name ∈ map fst props) then lookup_prop name props
           else lookup_prop name (own_props getDefaultSettings).
Proof.
  intros Hnd Hempty Hcodec. unfold saveSettings. eff_simpl.
  destruct (localStorage_setItem SETTINGS_KEY (JSON_stringify (VObj props)) ls)
    as [[[]|e] ls1] eqn:Hs; [|discriminate].
  intros [= <-]. apply setItem_success in Hs as [He Hitems].
  unfold loadSettings. rewrite try_catch_eq, Eff_bind_eq.
  rewrite getItem_enabled by exact He. rewrite Hitems, lookup_insert_eq.
  destruct (JSON_stringify (VObj props)) as [|c text] eqn:Htext.
  { rewrite Hempty in Hcodec. discriminate. }
  assert (Ht : truthy (VStr (c :: text)) = true) by reflexivity.
  rewrite Ht. cbn [negb]. rewrite Eff_bind_eq, pure_exc_eq, Hcodec.
  eexists. split; [reflexivity|].
  intros name. apply lookup_spread. exact Hnd.
Qed.


(** X21: [getStorageStats] never throws and never writes, and its counts add
    up: the completed and the active tasks are all the tasks counted. *)
Theorem getStorageStats_counts_add_up (env : Env) (ls : LocalStorage) :
  exists stats,
    getStorageStats env ls = (Return stats, ls)
    /\ (Storage.completedCount stats + Storage.activeCount stats
        = taskCount stats)%nat.
Proof.
  unfold getStorageStats. rewrite try_catch_eq, Eff_bind_eq.
  destruct (loadTasks_shape env ls) as (l & Hl & Hshape). rewrite Hl.
  destruct (counts_of_loaded l Hshape) as (lc & la & Hc & Ha & Hlen).
  rewrite Eff_bind_eq.
  destruct (enabled ls) eqn:He;
    [|rewrite (getItem_disabled _ _ He); eexists; split; reflexivity].
  rewrite (getItem_enabled _ _ He), Eff_bind_eq, pure_exc_eq.
  match goal with
  | |- context [match ?m with Return _ => _ | Throw _ => _ end] =>
      destruct m as [meta|e]
  end; [|eexists; split; reflexivity].
  rewrite Eff_bind_eq, (getItem_enabled _ _ He).
  rewrite Eff_bind_eq, (getItem_enabled _ _ He).
  eff_simpl. rewrite Hc, Ha.
  destruct (get meta "lastModified") as [lm|e]; [|eexists; split; reflexivity].
  destruct (get meta "version") as [ver|e]; [|eexists; split; reflexivity].
  eexists. split; [reflexivity|]. exact Hlen.
Qed.

Lemma getStorageStats_shape (env : Env) (ls : LocalStorage) :
  exists stats, getStorageStats env ls = (Return stats, ls).
Proof.
  unfold getStorageStats. rewrite try_catch_eq, Eff_bind_eq.
  destruct (loadTasks_shape env ls) as (l & -> & _).
  rewrite Eff_bind_eq.
  destruct (enabled ls) eqn:He;
    [|rewrite (getItem_disabled _ _ He); eexists; reflexivity].
  rewrite (getItem_enabled _ _ He), Eff_bind_eq, pure_exc_eq.
  match goal with
  | |- context [match ?m with Return _ => _ | Throw _ => _ end] =>
      destruct m as [meta|e]
  end; [|eexists; reflexivity].
  rewrite Eff_bind_eq, (getItem_enabled _ _ He).
  rewrite Eff_bind_eq, (getItem_enabled _ _ He).
  eff_simpl.
  destruct (Array_filter is_completed l); [|eexists; reflexivity].
  destruct (Array_filter is_active l); [|eexists; reflexivity].
  destruct (get meta "lastModified") as [lm|e]; [|eexists; reflexivity].
  destruct (get meta "version") as [ver|e]; eexists; reflexivity.
Qed.

(** X22: on a storage that allows access, [clearStorage] returns [true];
    afterwards [loadTasks] returns no task, [loadSettings] the default
    settings and [getStorageStats] the empty statistics, and every item
    under another key is as before. *)
Theorem clearStorage_resets (env : Env) (ls : LocalStorage) :
  enabled ls = true ->
  exists ls',
    clearStorage ls = (Return true, ls')
    /\ loadTasks env ls' = (Return [], ls')
    /\ loadSettings ls' = (Return getDefaultSettings, ls')
    /\ getStorageStats env ls' =
         (Return {| taskCount := 0; Storage.completedCount := 0;
                    Storage.activeCount := 0;
                    storageSize := 0; lastModified := VNull;
                    version := VStr (js "1.0.0") |}, ls')
    /\ (forall key, key <> STORAGE_KEY -> key <> META_KEY -> key <> SETTINGS_KEY ->
          items ls' !! key = items ls !! key).
Proof.
  intros He. unfold clearStorage. eff_simpl.
  rewrite (removeItem_enabled _ _ He). eff_simpl.
  rewrite removeItem_enabled by reflexivity. eff_simpl.
  rewrite removeItem_enabled by reflexivity. cbn [items quota enabled].
  eexists. split; [reflexivity|].
  set (ls' := {| items := _; quota := _; enabled := true |}).
  assert (H1 : items ls' !! STORAGE_KEY = None).
  { unfold ls'. cbn [items]. rewrite lookup_delete_ne by discriminate.
    rewrite lookup_delete_ne by discriminate. apply lookup_delete_eq. }
  assert (H2 : items ls' !! META_KEY = None).
  { unfold ls'. cbn [items]. rewrite lookup_delete_ne by discriminate.
    apply lookup_delete_eq. }
  assert (H3 : items ls' !! SETTINGS_KEY = None).
  { unfold ls'. cbn [items]. apply lookup_delete_eq. }
  assert (Hload : loadTasks env ls' = (Return [], ls')).
  { unfold loadTasks. rewrite try_catch_eq, Eff_bind_eq.
    rewrite getItem_enabled by reflexivity. rewrite H1. reflexivity. }
  split; [exact Hload|]. split; [|split].
  - unfold loadSettings. rewrite try_catch_eq, Eff_bind_eq.
    rewrite getItem_enabled by reflexivity. rewrite H3. reflexivity.
  - unfold getStorageStats. rewrite try_catch_eq, Eff_bind_eq, Hload.
    rewrite Eff_bind_eq, getItem_enabled by reflexivity. rewrite H2.
    repeat (eff_simpl; rewrite getItem_enabled by reflexivity).
    rewrite H1, H3. reflexivity.
  - intros key K1 K2 K3. unfold ls'. cbn [items].
    rewrite !lookup_delete_ne by congruence. reflexivity.
Qed.

(** X23: [isStorageAvailable] never throws and leaves every item under
    another key than its probe as it was.  It returns [true] on a
    storage that accepts every write, where it also removes an item
    stored under the probe key, and [false], with the storage untouched,
    on a storage that refuses access. *)
Theorem isStorageAvailable_probes (ls : LocalStorage) :
  (exists b ls',
     isStorageAvailable ls = (Return b, ls')
     /\ forall key, key <> "__storage_test__" -> items ls' !! key = items ls !! key)
  /\ (unlimited ls ->
      isStorageAvailable ls =
        (Return true,
         {| items := delete "__storage_test__" (items ls);
            quota := None; enabled := true |}))
  /\ (enabled ls = false -> isStorageAvailable ls = (Return false, ls)).
Proof.
  split; [|split].
  - unfold isStorageAvailable. eff_simpl.
    destruct (localStorage_setItem "__storage_test__" (js "__storage_test__") ls)
      as [[[]|e] ls1] eqn:Hs.
    + apply setItem_success in Hs as [He Hitems]. eff_simpl.
      rewrite (removeItem_enabled _ _ He). eexists _, _. split; [reflexivity|].
      intros key Hk. cbn [items]. rewrite Hitems.
      rewrite lookup_delete_ne, lookup_insert_ne by congruence. reflexivity.
    + destruct (setItem_outcome "__storage_test__" (js "__storage_test__") ls)
        as [(ls2 & Hs2)|(e2 & Hs2)]; rewrite Hs2 in Hs; [discriminate|].
      injection Hs as _ <-. eexists _, _. split; [reflexivity|]. reflexivity.
  - intros Hu. unfold isStorageAvailable. eff_simpl.
    rewrite (setItem_unlimited _ _ _ Hu). eff_simpl.
    rewrite removeItem_enabled by reflexivity.
    cbn [items quota]. rewrite delete_insert_eq. reflexivity.
  - intros He. unfold isStorageAvailable. eff_simpl.
    rewrite (setItem_disabled _ _ _ He). reflexivity.
Qed.

(** X24: [importTasks] reports success for every object and every array, and
    failure for every other value; the result does not tell whether
    anything was stored.  On a storage that refuses access it still
    returns [true] for an object, and nothing is written. *)
Theorem importTasks_reports_success (data : jsval) (env : Env) (ls : LocalStorage) :
  exists ls',
    importTasks data env ls =
      (Return (truthy data && String.eqb (typeof data) "object"), ls')
    /\ (enabled ls = false -> ls' = ls).
Proof.
  unfold importTasks. rewrite try_catch_eq, Eff_bind_eq.
  destruct (truthy data && String.eqb (typeof data) "object") eqn:Hobj.
  2:{ assert (Hg : negb (truthy data) || negb (String.eqb (typeof data) "object")
                   = true).
      { destruct (truthy data), (String.eqb (typeof data) "object");
          try discriminate; reflexivity. }
      rewrite Hg. exists ls. split; reflexivity. }
  apply andb_true_iff in Hobj as [Ht Hty]. rewrite Ht, Hty. cbn [negb orb].
  rewrite Eff_ret_eq, Eff_bind_eq, pure_exc_eq.
  assert (Hget : forall name, exists v, get data name = Return v).
  { intros name. destruct data; try discriminate; eexists; reflexivity. }
  destruct (Hget "tasks") as [data_tasks ->].
  destruct (Hget "settings") as [data_settings ->].
  rewrite Eff_bind_eq.
  assert (Hfirst : exists ls1,
            (if truthy data_tasks && Array_isArray data_tasks
             then saveTasks data_tasks env ≫= (fun _ => mret tt)
             else mret tt) ls = (Return tt, ls1)
            /\ (enabled ls = false -> ls1 = ls)).
  { destruct (truthy data_tasks && Array_isArray data_tasks).
    - rewrite Eff_bind_eq.
      destruct (enabled ls) eqn:He.
      + destruct (saveTasks_returns data_tasks env ls) as (b & ls1 & ->).
        exists ls1. split; [reflexivity | discriminate].
      + rewrite (saveTasks_disabled _ _ _ He). exists ls. split; reflexivity.
    - exists ls. split; reflexivity. }
  destruct Hfirst as (ls1 & -> & Hls1).
  rewrite Eff_bind_eq, pure_exc_eq, Eff_bind_eq.
  destruct (truthy data_settings && String.eqb (typeof data_settings) "object").
  - rewrite Eff_bind_eq. destruct (enabled ls) eqn:He.
    + destruct (saveSettings_returns data_settings ls1) as (b & ls2 & ->).
      exists ls2. split; [reflexivity | discriminate].
    + rewrite (Hls1 eq_refl), (saveSettings_disabled _ _ He).
      exists ls. split; reflexivity.
  - exists ls1. split; [reflexivity | exact Hls1].
Qed.

(** X25: a backup restores the tasks.  When the tasks key of a storage holds
    the snapshot of storable tasks, the object that [exportTasks]
    returns, given to [importTasks] on a storage that accepts every
    write, makes [loadTasks] return those tasks there (the host's JSON
    codec reads back the snapshot and rejects the empty text). *)
Theorem exportTasks_importTasks_restores
  (T : list Task) (env env1 env2 : Env) (ls target : LocalStorage) :
  enabled ls = true ->
  items ls !! STORAGE_KEY = Some (snapshot T) ->
  Forall storable T ->
  JSON_parse [] = None ->
  round_trips T ->
  unlimited target ->
  exists data target',
    exportTasks env ls = (Return data, ls)
    /\ importTasks data env1 target = (Return true, target')
    /\ loadTasks env2 target' = (Return (map js_of_task T), target').
Proof.
  intros He Hstored HT Hempty Hcodec Hu.
  pose proof (loadTasks_of_snapshot T env ls He Hstored HT Hempty Hcodec) as Hload.
  destruct (loadSettings_returns ls) as (settings & Hsettings).
  destruct (getStorageStats_shape env ls) as (stats & Hstats).
  destruct (saveTasks_unlimited T env1 target Hu) as (t1 & Hs & Hu1 & Hk & _).
  unfold exportTasks. rewrite try_catch_eq, Eff_bind_eq, Hload.
  rewrite Eff_bind_eq, Hsettings, Eff_bind_eq, Hstats, Eff_ret_eq.
  eexists _, _. split; [reflexivity|].
  unfold importTasks. rewrite try_catch_eq, Eff_bind_eq.
  cbn [truthy typeof negb orb String.eqb Ascii.eqb Bool.eqb andb get lookup_prop
       Array_isArray].
  eff_simpl. cbn [truthy Array_isArray andb]. eff_simpl.
  change (VArr (map js_of_task T)) with (js_of_tasks T). rewrite Hs.
  eff_simpl. cbn [truthy typeof String.eqb Ascii.eqb Bool.eqb andb]. eff_simpl.
  rewrite (saveSettings_unlimited _ _ Hu1). eff_simpl.
  split; [reflexivity|].
  apply loadTasks_of_snapshot; try assumption; [reflexivity|].
  cbn [items]. rewrite lookup_insert_ne by discriminate. exact Hk.
Qed.

End BackupFacts.

(* --------------------------------------------------------------------- *)
(** ** Escaping                                                           *)
(* --------------------------------------------------------------------- *)

Lemma escape_entity_cases (c : N) :
  (c = 38 /\ escape_entity c = [38; 97; 109; 112; 59])%N
  \/ (c = 60 /\ escape_entity c = [38; 108; 116; 59])%N
  \/ (c = 62 /\ escape_entity c = [38; 103; 116; 59])%N
  \/ (c = 34 /\ escape_entity c = [38; 113; 117; 111; 116; 59])%N
  \/ (c = 39 /\ escape_entity c = [38; 35; 51; 57; 59])%N
  \/ (c <> 38%N /\ is_markup c = false /\ escape_entity c = [c]).
Proof.
  unfold escape_entity, is_markup.
  destruct (N.eqb_spec c 38) as [->|H38]; [left; split; reflexivity|].
  destruct (N.eqb_spec c 60) as [->|H60]; [right; left; split; reflexivity|].
  destruct (N.eqb_spec c 62) as [->|H62];
    [right; right; left; split; reflexivity|].
  destruct (N.eqb_spec c 34) as [->|H34];
    [right; right; right; left; split; reflexivity|].
  destruct (N.eqb_spec c 39) as [->|H39];
    [right; right; right; right; left; split; reflexivity|].
  right; right; right; right; right. repeat split. exact H38.
Qed.

Ltac entity_cases c H :=
  destruct (escape_entity_cases c)
    as [[? H]|[[? H]|[[? H]|[[? H]|[[? H]|(? & ? & H)]]]]]; subst; rewrite H.

(** The replacements of two code units do not overlap: when two escaped
    texts agree, so do their first units and what follows them. *)
Lemma escape_entity_inj (c d : N) (x y : jsstring) :
  escape_entity c ++ x = escape_entity d ++ y -> c = d /\ x = y.
Proof.
  entity_cases c Hc; entity_cases d Hd; cbn [app]; intros Heq;
    try discriminate; try (injection Heq as ?; subst; tauto);
    try (injection Heq as ? ?; subst; congruence).
Qed.

(** X26: [escapeHTML] leaves no angle bracket, double quote or apostrophe in
    its result, and loses nothing: two strings with the same escaped
    form are the same string. *)
Theorem escapeHTML_escapes :
  (forall str, Forall (fun c => is_markup c = false) (escapeHTML str))
  /\ (forall a b, escapeHTML a = escapeHTML b -> a = b).
Proof.
  split.
  - intros str. unfold escapeHTML.
    induction str as [|c str IH]; [constructor|].
    cbn [flat_map]. apply Forall_app. split; [|exact IH].
    entity_cases c Hc; repeat constructor. assumption.
  - unfold escapeHTML. intros a.
    induction a as [|c a IH]; intros [|d b]; cbn [flat_map].
    + reflexivity.
    + intros Heq. symmetry in Heq. apply app_eq_nil in Heq as [Hd _].
      revert Hd. entity_cases d Hd; discriminate.
    + intros Heq. apply app_eq_nil in Heq as [Hc _].
      revert Hc. entity_cases c Hc; discriminate.
    + intros Heq. apply escape_entity_inj in Heq as [-> Heq].
      rewrite (IH b Heq). reflexivity.
Qed.

(* --------------------------------------------------------------------- *)
(** ** Entries that saveTasks drops, and the warning near the limit       *)
(* --------------------------------------------------------------------- *)



Lemma approaching_limit_threshold (n : nat) :
  (n <= 200)%nat ->
  PrimFloat.ltb (PrimFloat.mul (number_of_nat maxLength) 0.8%float) (number_of_nat n)
  = (160 <? n)%nat.
Proof.
  intros Hn.
  assert (Hall : forallb (fun n =>
                   Bool.eqb
                     (PrimFloat.ltb (PrimFloat.mul (number_of_nat maxLength) 0.8%float)
                        (number_of_nat n))
                     (160 <? n)%nat) (seq 0 201) = true)
    by (vm_compute; reflexivity).
  rewrite forallb_forall in Hall.
  apply Bool.eqb_prop, Hall, in_seq. lia.
Qed.

Section MoreFacts.
Context `{!Platform}.


(** X28: an accepted input carries the warning that it approaches the limit
    exactly when its trimmed value has more than 160 code units. *)
Theorem validateTaskInput_warns_near_limit
  (input : jsstring) (existingTasks : list Task) :
  isValid (validateTaskInput input existingTasks) = true ->
  (In APPROACHING_LIMIT (warnings (validateTaskInput input existingTasks))
   <-> (160 < length (trim input))%nat).
Proof.
  intros Hvalid. apply isValid_iff_acceptable in Hvalid as (Hne & Hlen & _).
  unfold validateTaskInput. rewrite (truthy_VStr_nonempty _ Hne).
  pose proof (length_nonempty _ Hne) as Hpos.
  destruct (length (trim input)) as [|n] eqn:Hn; [lia|].
  cbn [required andb negb Nat.eqb warnings].
  rewrite (approaching_limit_threshold _ Hlen).
  destruct (Nat.ltb_spec 160 (S n)) as [Hgt|Hle].
  - split; [intros _; exact Hgt | intros _; left; reflexivity].
  - split; [|lia]. cbn [app]. intros Hin.
    match type of Hin with
    | In _ (if ?b then _ else _) => destruct b
    end; cbn in Hin; intuition discriminate.
Qed.

End MoreFacts.

(* --------------------------------------------------------------------- *)
(** ** Sample runs of the statements above                              *)
(* --------------------------------------------------------------------- *)

(** [buy milk] submitted to a store that holds [Buy milk]. *)
Lemma handleTaskSubmit_rejected_witness :
  ~ @acceptable Reference.platform (trim (js "buy milk")) (tasks Samples.app0)
  /\ @handleTaskSubmit Reference.platform (js "buy milk") Samples.env0
       Samples.app0 Samples.empty_storage
     = (Return Samples.app0, Samples.empty_storage).
Proof.
  assert (Hn : ~ @acceptable Reference.platform (trim (js "buy milk"))
                   (tasks Samples.app0)).
  { intros (_ & _ & _ & Hdup).
    apply Forall_cons in Hdup as [_ Hdup]. apply Forall_cons in Hdup as [Hmilk _].
    apply Hmilk. vm_compute. reflexivity. }
  split; [exact Hn|].
  apply (@handleTaskSubmit_rejected Reference.platform _ _ _ _ Hn).
Defined.

(** A new text with spaces around it, submitted to a sample store. *)
Lemma handleTaskSubmit_accepted_witness :
  @acceptable Reference.platform (trim (js "  Feed the cat ")) (tasks Samples.app0)
  /\ exists this' ls',
       @handleTaskSubmit Reference.platform (js "  Feed the cat ") Samples.env0
         Samples.app0 Samples.empty_storage = (Return this', ls')
       /\ tasks this' =
            {| id := PrimFloat.add (Date_now Samples.env0) (Math_random Samples.env0);
               text := sanitizeInput (trim (js "  Feed the cat "));
               completed := false;
               createdAt := Date_toISOString Samples.env0;
               updatedAt := Date_toISOString Samples.env0 |} :: tasks Samples.app0
       /\ history this' = history (@saveState Reference.platform Samples.app0)
       /\ historyIndex this' = historyIndex (@saveState Reference.platform Samples.app0)
       /\ @saveData Reference.platform Samples.env0 this' Samples.empty_storage
          = (Return tt, ls').
Proof.
  assert (Ha : @acceptable Reference.platform (trim (js "  Feed the cat "))
                 (tasks Samples.app0)).
  { split; [vm_compute; discriminate|].
    split; [vm_compute; lia|].
    split; [vm_compute; reflexivity|].
    repeat constructor; vm_compute; discriminate. }
  split; [exact Ha|].
  apply (@handleTaskSubmit_accepted Reference.platform _ _ _ _ Ha).
Defined.

(** The input [<>] submitted to a new application. *)
Lemma handleTaskSubmit_stores_empty_text_witness :
  Forall (fun c => is_angle_bracket c = true) (js "<>")
  /\ exists this' ls' task,
       @handleTaskSubmit Reference.platform (js "<>") Samples.env0 constructor
         Samples.empty_storage = (Return this', ls')
       /\ tasks this' = task :: tasks constructor
       /\ text task = [].
Proof.
  assert (Hb : Forall (fun c => is_angle_bracket c = true) (js "<>")).
  { repeat constructor. }
  split; [exact Hb|].
  apply (@handleTaskSubmit_stores_empty_text Reference.platform (js "<>")
           Samples.env0 constructor Samples.empty_storage).
  - vm_compute. discriminate.
  - vm_compute. lia.
  - exact Hb.
  - constructor.
Defined.

(** [deleteTask] of the second task of a sample store. *)
Lemma deleteTask_removes_found_witness :
  find (has_id 1700000000000.5%float) (tasks Samples.app0) = Some Samples.milk
  /\ exists this' ls' before after,
       @deleteTask Reference.platform 1700000000000.5%float Samples.env0
         Samples.app0 Samples.empty_storage = (Return this', ls')
       /\ tasks Samples.app0 = before ++ Samples.milk :: after
       /\ tasks this' = before ++ after
       /\ Forall (fun u => has_id 1700000000000.5%float u = false) before
       /\ (distinct_ids (tasks Samples.app0) ->
           Forall (fun u => has_id 1700000000000.5%float u = false) (tasks this'))
       /\ history this' = history (@saveState Reference.platform Samples.app0)
       /\ @saveData Reference.platform Samples.env0 this' Samples.empty_storage
          = (Return tt, ls').
Proof.
  assert (Hfind : find (has_id 1700000000000.5%float) (tasks Samples.app0)
                  = Some Samples.milk) by (vm_compute; reflexivity).
  split; [exact Hfind|].
  apply (@deleteTask_removes_found Reference.platform _ _ _ _ _ Hfind).
Defined.

(** [editTask] of a sample task with an answer that holds markup. *)
Lemma editTask_stores_trimmed_answer_witness :
  let taskId := 1700000000000.5%float in
  let newText := js " Buy <b>oat</b> milk " in
  let others := List.filter (fun t => negb (has_id taskId t)) (tasks Samples.app0) in
  find (has_id taskId) (tasks Samples.app0) = Some Samples.milk
  /\ trim newText <> text Samples.milk
  /\ @acceptable Reference.platform (trim newText) others
  /\ exists this' ls',
       @editTask Reference.platform taskId (Some newText) Samples.env0
         Samples.app0 Samples.empty_storage = (Return this', ls')
       /\ find (has_id taskId) (tasks this') =
            Some {| id := id Samples.milk; text := js "Buy <b>oat</b> milk";
                    completed := completed Samples.milk;
                    createdAt := createdAt Samples.milk;
                    updatedAt := Date_toISOString Samples.env0 |}.
Proof.
  cbv zeta.
  assert (Hfind : find (has_id 1700000000000.5%float) (tasks Samples.app0)
                  = Some Samples.milk) by (vm_compute; reflexivity).
  assert (Hneq : trim (js " Buy <b>oat</b> milk ") <> text Samples.milk)
    by (vm_compute; discriminate).
  assert (Ha : @acceptable Reference.platform (trim (js " Buy <b>oat</b> milk "))
                 (List.filter (fun t => negb (has_id 1700000000000.5%float t))
                    (tasks Samples.app0))).
  { split; [vm_compute; discriminate|].
    split; [vm_compute; lia|].
    split; [vm_compute; reflexivity|].
    change (List.filter (fun t => negb (has_id 1700000000000.5%float t))
              (tasks Samples.app0)) with [Samples.dog].
    repeat constructor; vm_compute; discriminate. }
  split; [exact Hfind|]. split; [exact Hneq|]. split; [exact Ha|].
  destruct (@editTask_stores_trimmed_answer Reference.platform
              1700000000000.5%float (js " Buy <b>oat</b> milk ") Samples.env0
              Samples.app0 Samples.empty_storage Samples.milk Hfind Hneq)
    as [Hyes _].
  destruct (Hyes Ha) as (this' & ls' & Hrun & Hfound & _).
  exists this', ls'. split; [exact Hrun | exact Hfound].
Defined.

(** A saved theme is read back, with the default filter beside it. *)
Lemma saveSettings_loadSettings_merges_witness :
  let props := [("theme", VStr (js "dark"))] in
  let ls' := snd (@saveSettings Reference.platform (VObj props)
                    Samples.empty_storage) in
  NoDup (map fst props)
  /\ exists loaded,
       @loadSettings Reference.platform ls' = (Return (VObj loaded), ls')
       /\ forall name,
            lookup_prop name loaded =
              if bool_decide (name ∈ map fst props) then lookup_prop name props
              else lookup_prop name (own_props getDefaultSettings).
Proof.
  cbv zeta.
  assert (Hnd : NoDup (map fst [("theme", VStr (js "dark"))])).
  { apply NoDup_singleton. }
  split; [exact Hnd|].
  apply (@saveSettings_loadSettings_merges Reference.platform
           [("theme", VStr (js "dark"))] Samples.empty_storage _ Hnd).
  - reflexivity.
  - vm_compute. reflexivity.
  - vm_compute. reflexivity.
Defined.

(** [clearStorage] on the storage that a save of a sample store left. *)
Lemma clearStorage_resets_witness :
  let ls := snd (@saveData Reference.platform Samples.env0 Samples.app0
                   Samples.empty_storage) in
  enabled ls = true
  /\ exists ls',
       @clearStorage ls = (Return true, ls')
       /\ @loadTasks Reference.platform Samples.env1 ls' = (Return [], ls')
       /\ @loadSettings Reference.platform ls' = (Return getDefaultSettings, ls').
Proof.
  cbv zeta.
  assert (He : enabled (snd (@saveData Reference.platform Samples.env0 Samples.app0
                               Samples.empty_storage)) = true)
    by (vm_compute; reflexivity).
  split; [exact He|].
  destruct (@clearStorage_resets Reference.platform Samples.env1 _ He)
    as (ls' & Hclear & Hload & Hsettings & _).
  exists ls'. split; [exact Hclear|]. split; [exact Hload | exact Hsettings].
Defined.

(** A backup of a saved sample store, restored into an empty storage. *)
Lemma exportTasks_importTasks_restores_witness :
  let T := tasks Samples.app0 in
  let ls := snd (@saveData Reference.platform Samples.env0 Samples.app0
                   Samples.empty_storage) in
  items ls !! STORAGE_KEY = Some (@snapshot Reference.platform T)
  /\ Forall storable T
  /\ exists data target',
       @exportTasks Reference.platform Samples.env0 ls = (Return data, ls)
       /\ @importTasks Reference.platform data Samples.env1 Samples.empty_storage
          = (Return true, target')
       /\ @loadTasks Reference.platform Samples.env0 target'
          = (Return (map js_of_task T), target').
Proof.
  cbv zeta.
  assert (Hstored :
            items (snd (@saveData Reference.platform Samples.env0 Samples.app0
                          Samples.empty_storage)) !! STORAGE_KEY
            = Some (@snapshot Reference.platform (tasks Samples.app0)))
    by (vm_compute; reflexivity).
  assert (HT : Forall storable (tasks Samples.app0))
    by (repeat constructor; discriminate).
  split; [exact Hstored|]. split; [exact HT|].
  apply (@exportTasks_importTasks_restores Reference.platform
           (tasks Samples.app0) Samples.env0 Samples.env1 Samples.env0 _
           Samples.empty_storage).
  - vm_compute. reflexivity.
  - exact Hstored.
  - exact HT.
  - reflexivity.
  - vm_compute. reflexivity.
  - split; reflexivity.
Defined.


(** An accepted input of 161 letters. *)
Lemma validateTaskInput_warns_near_limit_witness :
  let input := repeat 97%N 161 in
  isValid (@validateTaskInput Reference.platform input []) = true
  /\ (In APPROACHING_LIMIT (warnings (@validateTaskInput Reference.platform input []))
      <-> (160 < length (trim input))%nat).
Proof.
  cbv zeta.
  assert (Hv : isValid (@validateTaskInput Reference.platform (repeat 97%N 161) [])
               = true) by (vm_compute; reflexivity).
  split; [exact Hv|].
  apply (@validateTaskInput_warns_near_limit Reference.platform _ _ Hv).
Defined.
